(** * lsync: the terminal canvas ([ui.py]) and the multiplexing loop ([sync.py])

    A shallow embedding of [CursorTool], [UITool], the [ui_tool] session
    scope and [SyncTool._ui_thread], followed by the properties of the
    specification that concern them.

    Python integers are unbounded and are modelled by [Z]; [str] values by
    [string]; the mutable [UITool] object, the standard output and the process
    handles live in an explicit [World] threaded through a state-and-exception
    monad, so that the state reached when an exception is raised stays
    observable. *)

From Stdlib Require Import ZArith String Ascii List Lia.
From Stdlib Require Import DecimalString.
From stdpp Require Import base option list gmap.
Import ListNotations.

Local Open Scope string_scope.
Local Open Scope list_scope.
Local Open Scope Z_scope.

(** ** Characters and strings *)

Definition LF : ascii := ascii_of_nat 10.
Definition CR : ascii := ascii_of_nat 13.
Definition ESC : ascii := ascii_of_nat 27.

(** A one-character Python [str]. *)
Definition str1 (c : ascii) : string := String c EmptyString.

(** ["\n"] and ["\r"] as Python string literals. *)
Definition nl : string := str1 LF.
Definition cr : string := str1 CR.

(** [x in [a, b, ...]] on strings: equality with one of the elements. *)
Definition str_in_list (x : string) (l : list string) : bool :=
  existsb (String.eqb x) l.
Arguments str_in_list : simpl never.

(** [c in s] for a one-character needle [c]: the character occurs in [s]. *)
Fixpoint char_in_str (c : ascii) (s : string) : bool :=
  match s with
  | EmptyString => false
  | String a rest => Ascii.eqb c a || char_in_str c rest
  end.

(** ["%d" % n]. *)
Definition fmt_d (n : Z) : string := NilZero.string_of_int (Z.to_int n).

(** ** Exceptions *)

(** The exceptions that matter to the code: the ones it raises itself, the
    one [contextlib] raises for a generator that never yields, any other
    subclass of [Exception] a session body may raise, and the exceptions that
    derive from [BaseException] only ([KeyboardInterrupt], [SystemExit],
    [GeneratorExit]), which [except Exception] does not catch. *)
Inductive exn : Type :=
| AssertionError
| IndexError (msg : string)
| RuntimeError (msg : string)
| OtherException (msg : string)
| BaseOnly (msg : string).

(** [isinstance(e, Exception)]. *)
Definition is_Exception (e : exn) : bool :=
  match e with
  | BaseOnly _ => false
  | _ => true
  end.

(** [str(e)]; a bare [assert] carries no message. *)
Definition exn_str (e : exn) : string :=
  match e with
  | AssertionError => ""
  | IndexError m | RuntimeError m | OtherException m | BaseOnly m => m
  end.

(** ** Standard output *)

(** One entry per write to standard output.  The control sequences of
    [CursorTool] are kept symbolic; [bytes_of] gives the bytes each of them
    stands for. *)
Inductive event : Type :=
| CUU (n : Z)          (* "\x1b[%dA" *)
| CUD (n : Z)          (* "\x1b[%dB" *)
| CUF (n : Z)          (* "\x1b[%dC" *)
| CUB (n : Z)          (* "\x1b[%dD" *)
| CarriageReturn       (* "\r" *)
| HideCursor           (* "\x1b[?25l" *)
| ShowCursor           (* "\x1b[?25h" *)
| ClearScreen          (* "\x1b[2J\x1b[H" *)
| Text (s : string).   (* print(s, end="") and sys.stdout.write(s) *)

Definition csi (body : string) : string := String ESC ("[" ++ body).

Definition bytes_of (e : event) : string :=
  match e with
  | CUU n => csi (fmt_d n ++ "A")
  | CUD n => csi (fmt_d n ++ "B")
  | CUF n => csi (fmt_d n ++ "C")
  | CUB n => csi (fmt_d n ++ "D")
  | CarriageReturn => cr
  | HideCursor => csi "?25l"
  | ShowCursor => csi "?25h"
  | ClearScreen => (csi "2J" ++ csi "H")%string
  | Text s => s
  end.

(** The byte stream a trace of writes amounts to. *)
Definition bytes_of_trace (tr : list event) : string :=
  fold_right (fun e acc => (bytes_of e ++ acc)%string) "" tr.

(** A write that moves the cursor or toggles it, and puts no character on
    the screen. *)
Definition is_control (e : event) : bool :=
  match e with
  | Text _ => false
  | _ => true
  end.

(** ** The world and its monad *)

(** The fields of a [UITool] object. *)
Record UITool : Type := mkUITool {
  max_lines : Z;
  cur_line : Z;
  cur_col : Z;
  line_pos : list Z
}.

(** The session's [UITool] object, what has been written to standard output
    so far, and whatever else the running code owns ([Env]: the process
    handles, for the multiplexing loop). *)
Record World (Env : Type) : Type := mkWorld {
  tool : UITool;
  stdout : list event;
  env : Env
}.
Arguments mkWorld {Env} _ _ _.
Arguments tool {Env} _.
Arguments stdout {Env} _.
Arguments env {Env} _.

(** How a computation ends: with a value, with a raised exception, or not at
    all within the steps it was given ([Hang], for the polling loop). *)
Inductive result (A : Type) : Type :=
| Ok (a : A)
| Raise (e : exn)
| Hang.
Arguments Ok {A} _.
Arguments Raise {A} _.
Arguments Hang {A}.

Definition M (Env A : Type) : Type := World Env -> result A * World Env.

Section Monad.
Context {Env : Type}.

Definition ret {A} (a : A) : M Env A := fun w => (Ok a, w).

Definition bind {A B} (m : M Env A) (k : A -> M Env B) : M Env B :=
fun w =>
  match m w with
  | (Ok a, w') => k a w'
  | (Raise e, w') => (Raise e, w')
  | (Hang, w') => (Hang, w')
  end.

Definition raise {A} (e : exn) : M Env A := fun w => (Raise e, w).

(** Reading and replacing the [UITool] object, writing to standard output. *)
Definition gets {A} (f : UITool -> A) : M Env A := fun w => (Ok (f (tool w)), w).

Definition modify_tool (f : UITool -> UITool) : M Env unit :=
fun w => (Ok tt, mkWorld (f (tool w)) (stdout w) (env w)).

Definition emit (e : event) : M Env unit :=
fun w => (Ok tt, mkWorld (tool w) (stdout w ++ [e]) (env w)).

(** [assert b]. *)
Definition py_assert (b : bool) : M Env unit :=
if b then ret tt else raise AssertionError.
End Monad.

Declare Scope py_scope.
Delimit Scope py_scope with py.
Notation "x <- c1 ;; c2" := (bind c1 (fun x => c2))
  (at level 100, c1 at next level, right associativity) : py_scope.
Notation "c1 ;; c2" := (bind c1 (fun _ => c2))
  (at level 100, right associativity) : py_scope.
Local Open Scope py_scope.

(** Attribute assignments [self.f = v]. *)
Definition set_max_lines (v : Z) (t : UITool) : UITool :=
  mkUITool v (cur_line t) (cur_col t) (line_pos t).
Definition set_cur_line (v : Z) (t : UITool) : UITool :=
  mkUITool (max_lines t) v (cur_col t) (line_pos t).
Definition set_cur_col (v : Z) (t : UITool) : UITool :=
  mkUITool (max_lines t) (cur_line t) v (line_pos t).
Definition set_line_pos (v : list Z) (t : UITool) : UITool :=
  mkUITool (max_lines t) (cur_line t) (cur_col t) v.

(** ** Python list indexing *)

(** The position [l[i]] denotes: a negative index counts from the end, and
    an index outside [-len(l), len(l)) denotes none. *)
Definition py_index {A} (l : list A) (i : Z) : option nat :=
  let n := Z.of_nat (length l) in
  if (0 <=? i) && (i <? n) then Some (Z.to_nat i)
  else if (- n <=? i) && (i <? 0) then Some (Z.to_nat (n + i))
  else None.

Section ListAccess.
Context {Env : Type}.

(** [self.line_pos[i]]. *)
Definition line_pos_getitem (i : Z) : M Env Z :=
l <- gets line_pos ;;
match py_index l i with
| Some k =>
    match l !! k with
    | Some v => ret v
    | None => raise (IndexError "list index out of range")
    end
| None => raise (IndexError "list index out of range")
end.

(** [self.line_pos[i] = v]. *)
Definition line_pos_setitem (i v : Z) : M Env unit :=
l <- gets line_pos ;;
match py_index l i with
| Some k => modify_tool (set_line_pos (<[k := v]> l))
| None => raise (IndexError "list assignment index out of range")
end.
End ListAccess.

(** ** [class CursorTool] *)

Module CursorTool.
Section Ops.
Context {Env : Type}.

Definition move_up (n : Z) : M Env unit := emit (CUU n).
Definition move_down (n : Z) : M Env unit := emit (CUD n).
Definition move_right (n : Z) : M Env unit := emit (CUF n).
Definition move_left (n : Z) : M Env unit := emit (CUB n).

Definition move_vertical (n : Z) : M Env unit :=
if 0 <? n then move_down n
else if n <? 0 then move_up (- n)
else ret tt.

Definition move_horizontal (n : Z) : M Env unit :=
if 0 <? n then move_right n
else if n <? 0 then move_left (- n)
else ret tt.

Definition reset_line : M Env unit := emit CarriageReturn.
Definition hide_cursor : M Env unit := emit HideCursor.
Definition show_cursor : M Env unit := emit ShowCursor.
Definition clear_screen : M Env unit := emit ClearScreen.
End Ops.
End CursorTool.

(** ** [class UITool] *)

Section Canvas.
Context {Env : Type}.

Definition move_cursor (line col : option Z) : M Env unit :=
  match line with
  | Some l =>
      cl <- gets cur_line ;;
      CursorTool.move_vertical (l - cl) ;;
      modify_tool (set_cur_line l)
  | None => ret tt
  end ;;
  match col with
  | Some c =>
      cc <- gets cur_col ;;
      CursorTool.move_horizontal (c - cc) ;;
      modify_tool (set_cur_col c)
  | None => ret tt
  end.

Definition reset_pos : M Env unit :=
  n <- gets max_lines ;;
  move_cursor (Some n) (Some 0).

(** [UITool(max_lines)]: the fields are assigned in the order of the
    source, [line_pos] after the cursor has been parked. *)
Definition __init__ (n : Z) : M Env unit :=
  modify_tool (set_max_lines n) ;;
  modify_tool (set_cur_line 0) ;;
  modify_tool (set_cur_col 0) ;;
  reset_pos ;;
  modify_tool (set_line_pos (replicate (Z.to_nat n) 0)).

Definition print_char (char : string) : M Env unit :=
  emit (Text char) ;;
  cc <- gets cur_col ;;
  modify_tool (set_cur_col (cc + 1)).

Definition print_line (content : string) : M Env unit :=
  emit (Text content) ;;
  cc <- gets cur_col ;;
  modify_tool (set_cur_col (cc + Z.of_nat (String.length content))).

Definition update_char (line : Z) (char : string) : M Env unit :=
  n <- gets max_lines ;;
  py_assert ((0 <=? line) && (line <? n)) ;;
  (if str_in_list char [nl; cr] then
     line_pos_setitem line 0
   else
     p <- line_pos_getitem line ;;
     move_cursor (Some line) (Some p) ;;
     print_char char ;;
     cc <- gets cur_col ;;
     line_pos_setitem line cc) ;;
  reset_pos.

Definition update_line (line : Z) (content : string) : M Env unit :=
  py_assert (negb (char_in_str CR content) && negb (char_in_str LF content)) ;;
  move_cursor (Some line) (Some 0) ;;
  print_line content ;;
  reset_pos.

Definition print_desc (desc : string) : M Env unit :=
  let desc := ("=====" ++ " " ++ desc ++ " " ++ "=====")%string in
  n <- gets max_lines ;;
  update_line n desc.

(** *** The session scope [with UITool.ui_tool(max_lines, desc) as tool: body] *)

(** Run a block and hand its outcome to the enclosing [try] statement. *)
Definition try_ {A} (block : M Env A) : M Env (result A) :=
  fun w =>
    match block w with
    | (Hang, w') => (Hang, w')
    | (r, w') => (Ok r, w')
    end.

(** [except Exception as e: print(e)]. *)
Definition on_exception (e : exn) : M Env unit :=
  emit (Text (exn_str e ++ nl)).

(** [finally: CursorTool.show_cursor(); sys.stdout.write("\n")]. *)
Definition teardown : M Env unit :=
  CursorTool.show_cursor ;;
  emit (Text nl).

(** The generator behind the context manager, with [body] run at its
    [yield].  Entering runs the generator up to the [yield]; an exception
    of the body is thrown into the generator at the [yield], inside the
    [try].  When the generator handles the exception and finishes,
    [contextlib] reports it as suppressed and the [with] statement
    completes normally; when the generator finishes before it yields,
    [contextlib] raises [RuntimeError]. *)
Definition ui_tool (n : Z) (desc : string) (body : M Env unit) : M Env unit :=
  CursorTool.hide_cursor ;;
  r <- try_ (__init__ n ;; print_desc desc) ;;
  match r with
  | Ok _ =>
      rb <- try_ body ;;
      match rb with
      | Raise e =>
          if is_Exception e then on_exception e ;; teardown
          else teardown ;; raise e
      | _ => teardown
      end
  | Raise e =>
      if is_Exception e then
        on_exception e ;; teardown ;; raise (RuntimeError "generator didn't yield")
      else teardown ;; raise e
  | Hang => fun w => (Hang, w)
  end.

(** A series of [update_char] calls, in order, up to the first that raises. *)
Fixpoint update_chars (calls : list (Z * string)) : M Env unit :=
  match calls with
  | [] => ret tt
  | (line, char) :: rest => update_char line char ;; update_chars rest
  end.
End Canvas.

(** ** The processes and [SyncTool._ui_thread] *)

(** What the loop uses of a [subprocess.Popen] handle.  A handle is an object
    with a state of its own, so every operation also returns the handle's
    next state. *)
Class Popen (P : Type) : Type := {
  poll : P -> option Z * P;          (* p.poll(): the return code, or None *)
  has_stdout : P -> bool;            (* p.stdout is not None *)
  read1 : P -> string * P            (* p.stdout.read(1); "" when nothing was read *)
}.

Section Sync.
Context {P : Type} `{Popen P}.

(** [all(p.poll() is not None for p in rsync_procs)]: [all] stops at the
    first process that is still running. *)
Fixpoint poll_all (ps : list P) : bool * list P :=
  match ps with
  | [] => (true, [])
  | p :: rest =>
      match poll p with
      | (None, p') => (false, p' :: rest)
      | (Some _, p') => let (b, rest') := poll_all rest in (b, p' :: rest')
      end
  end.

Definition all_exited : M (list P) bool :=
  fun w =>
    let (b, ps) := poll_all (env w) in
    (Ok b, mkWorld (tool w) (stdout w) ps).

(** The body of the [for] loop, for the process at index [i]. *)
Definition read_and_show (i : nat) : M (list P) unit :=
  fun w =>
    match env w !! i with
    | Some p =>
        if has_stdout p then
          let (char, p') := read1 p in
          let w' := mkWorld (tool w) (stdout w) (<[i := p']> (env w)) in
          if String.eqb char "" then (Ok tt, w')
          else update_char (Z.of_nat i) char w'
        else (Ok tt, w)
    | None => (Ok tt, w)
    end.

Fixpoint for_indices (idx : list nat) : M (list P) unit :=
  match idx with
  | [] => ret tt
  | i :: rest => read_and_show i ;; for_indices rest
  end.

(** [for i, p in enumerate(rsync_procs): ...]. *)
Definition read_pass : M (list P) unit :=
  fun w => for_indices (seq 0 (length (env w))) w.

(** The [while] loop, for at most [fuel] evaluations of its condition. *)
Fixpoint ui_loop (fuel : nat) : M (list P) unit :=
  match fuel with
  | O => fun w => (Hang, w)
  | S fuel' =>
      done <- all_exited ;;
      if done then ret tt else read_pass ;; ui_loop fuel'
  end.

Definition _ui_thread (fuel : nat) : M (list P) unit :=
  fun w => ui_tool (Z.of_nat (length (env w))) "TinyUI" (ui_loop fuel) w.
End Sync.

(** ** [sync.py]: the rsync command, the hosts and the directory to sync *)

(** How the pure functions of [sync.py] end: with a value, or by raising
    [typer.Exit] with the argument given. *)
Inductive outcome (A : Type) : Type :=
| Done (a : A)
| Exit (code : string).
Arguments Done {A} _.
Arguments Exit {A} _.

Section SyncCommand.
(** [get_lsync_dir()] is not part of the sources at hand; its value is taken
    as given. *)
Variable LSYNC_DIR : string.

Definition RSYNCIGNORE : string := (LSYNC_DIR ++ "/.rsyncignore")%string.

(** The list [_sync_command] builds, the empty strings removed. *)
Definition rsync_cmd (remote_dir local_dir : string) (delete back git_repo : bool)
    (git_ignore : option string) : list string :=
  let '(src_dir, dst_dir) :=
    if negb back then (local_dir, remote_dir) else (remote_dir, local_dir) in
  let rsync_cmd :=
    [ "rsync";
      "-ah";
      if delete then "--delete" else "";
      "--info=progress2";
      match git_ignore with
      | Some g => if String.eqb g "" then "" else ("--exclude-from=" ++ g)%string
      | None => ""
      end;
      if negb back then ("--exclude-from=" ++ RSYNCIGNORE)%string else "";
      if negb git_repo then "--exclude=.git" else "";
      src_dir;
      dst_dir ] in
  List.filter (fun cmd => negb (String.eqb cmd "")) rsync_cmd.

(** [typer.echo] writes its message and a line feed. *)
Definition _sync_command {Env} (remote_dir local_dir : string)
    (delete back git_repo : bool) (git_ignore : option string) : M Env (list string) :=
  let cmd := rsync_cmd remote_dir local_dir delete back git_repo git_ignore in
  emit (Text ("Executing: " ++ csi "42m" ++ String.concat " " cmd ++ csi "0m" ++ nl)) ;;
  ret cmd.

(** The first loop of [SyncTool.sync]: one command per host, the directory
    given a trailing slash on both sides.  [is_dir] and [git_ignore] stand
    for [self.local_dir.is_dir()] and [self._probe_gitignore()], taken not to
    change while the loop runs. *)
Fixpoint sync_commands {Env} (hosts : list string) (remote_posix local_posix : string)
    (is_dir delete back git_repo : bool) (git_ignore : option string)
    : M Env (list (list string)) :=
  match hosts with
  | [] => ret []
  | host :: rest =>
      let is_folder := if is_dir then "/" else "" in
      cmd <- _sync_command (host ++ ":" ++ remote_posix ++ is_folder)
                           (local_posix ++ is_folder)
                           delete back git_repo git_ignore ;;
      cmds <- sync_commands rest remote_posix local_posix
                            is_dir delete back git_repo git_ignore ;;
      ret (cmd :: cmds)
  end.
End SyncCommand.

(** The [hosts] entry of a server's configuration: one name or a list. *)
Inductive hosts_value : Type :=
| Host (h : string)
| HostList (hs : list string).

(** [SyncTool.__post_init__], as a function of the fields it reads; the
    result is the new [self.hosts]. *)
Definition __post_init__ (hosts : hosts_value) (master : option string) (back : bool)
    : outcome (list string) :=
  let hosts := match hosts with HostList hs => hs | Host h => [h] end in
  if (1 <? length hosts)%nat && back then
    match master with
    | None => Exit "master must be set when syncing back"
    | Some m => Done (List.filter (fun h => String.eqb h m) hosts)
    end
  else Done hosts.

Definition SYNC_DIRS : list string := ["common_sync"; "sglang"; "docker_workspace"].

(** An absolute path as its components, the innermost first: [d.name] is
    the head, [d.parent] the tail, and the root [/] has no component. *)
Definition as_posix (d : list string) : string :=
  ("/" ++ String.concat "/" (rev d))%string.

(** The [while] loop of [find_ancestor_to_sync], from directory [d]. *)
Fixpoint find_ancestor_from (cwd d : list string) : outcome (list string) :=
  match d with
  | [] =>
      Exit ("No ancestor directory in ['common_sync', 'sglang', 'docker_workspace'] found in "
            ++ as_posix cwd)
  | name :: parent =>
      if str_in_list name SYNC_DIRS then Done d else find_ancestor_from cwd parent
  end.

Definition find_ancestor_to_sync (cwd : list string) : outcome (list string) :=
  find_ancestor_from cwd cwd.

(** An argument of a command line that is an option. *)
Definition is_option (arg : string) : bool := String.prefix "--" arg.

(** The options [_sync_command] puts between [-ah] and the directories. *)
Definition rsync_options (LSYNC_DIR : string) (delete back git_repo : bool)
    (git_ignore : option string) : list string :=
  (if delete then ["--delete"] else [])
  ++ ["--info=progress2"]
  ++ match git_ignore with
     | Some g => if String.eqb g "" then [] else [("--exclude-from=" ++ g)%string]
     | None => []
     end
  ++ (if back then [] else [("--exclude-from=" ++ RSYNCIGNORE LSYNC_DIR)%string])
  ++ (if git_repo then [] else ["--exclude=.git"]).

(** ** The terminal *)

(** What the writes do to a terminal, for the sequences the code relies on:
    cursor up, down, right and left by a count, carriage return, cursor
    visibility, clear-and-home, and text.  The screen is unbounded downwards
    and to the right; moves up and left stop at the first row and column.
    Every character other than line feed and carriage return fills one cell
    (the canvas assumes characters one column wide); a line feed starts the
    next row, as on a terminal in its default output mode. *)
Record Term : Type := mkTerm {
  t_row : nat;
  t_col : nat;
  t_screen : gmap nat (list ascii);
  t_visible : bool
}.

(** A blank screen with the cursor at home. *)
Definition term0 : Term := mkTerm 0 0 ∅ true.

(** The count of a movement sequence; a parameter of 0 counts as 1. *)
Definition count (n : Z) : nat := Z.to_nat (Z.max 1 n).

(** Write [a] in column [c] of a row; the cells skipped over are blank. *)
Definition put_cell (c : nat) (a : ascii) (row : list ascii) : list ascii :=
  if (c <? length row)%nat then <[c := a]> row
  else row ++ replicate (c - length row) " "%char ++ [a].

Definition term_char (t : Term) (a : ascii) : Term :=
  if Ascii.eqb a LF then mkTerm (S (t_row t)) 0 (t_screen t) (t_visible t)
  else if Ascii.eqb a CR then mkTerm (t_row t) 0 (t_screen t) (t_visible t)
  else
    let row := default [] (t_screen t !! t_row t) in
    mkTerm (t_row t) (S (t_col t))
           (<[t_row t := put_cell (t_col t) a row]> (t_screen t)) (t_visible t).

Definition term_step (t : Term) (e : event) : Term :=
  match e with
  | CUU n => mkTerm (t_row t - count n) (t_col t) (t_screen t) (t_visible t)
  | CUD n => mkTerm (t_row t + count n) (t_col t) (t_screen t) (t_visible t)
  | CUF n => mkTerm (t_row t) (t_col t + count n) (t_screen t) (t_visible t)
  | CUB n => mkTerm (t_row t) (t_col t - count n) (t_screen t) (t_visible t)
  | CarriageReturn => mkTerm (t_row t) 0 (t_screen t) (t_visible t)
  | HideCursor => mkTerm (t_row t) (t_col t) (t_screen t) false
  | ShowCursor => mkTerm (t_row t) (t_col t) (t_screen t) true
  | ClearScreen => mkTerm 0 0 ∅ (t_visible t)
  | Text s => fold_left term_char (list_ascii_of_string s) t
  end.

(** The terminal after a trace of writes, from [t]. *)
Definition term_run (t : Term) (tr : list event) : Term := fold_left term_step tr t.

(** The screen a trace of writes leaves on a blank terminal. *)
Definition render (tr : list event) : Term := term_run term0 tr.

(** The text row [r] of the screen shows. *)
Definition row_text (t : Term) (r : nat) : string :=
  string_of_list_ascii (default [] (t_screen t !! r)).

(** The terminal's cursor is where the canvas believes it to be, the canvas
    having its line 0 in row [r0] and its column 0 in column [c0]. *)
Definition tracks (r0 c0 : nat) (t : Term) (u : UITool) : Prop :=
  Z.of_nat (t_row t) = Z.of_nat r0 + cur_line u /\
  Z.of_nat (t_col t) = Z.of_nat c0 + cur_col u.

(** ** Scripted process handles *)

(** A process that has [remaining] to write and exits once it has been read:
    [poll] reports it running while output remains and exited (code 0)
    afterwards. *)
Record Emitter : Type := mkEmitter { remaining : string }.

#[export] Instance Emitter_Popen : Popen Emitter := {
  poll p :=
    match remaining p with
    | EmptyString => (Some 0, p)
    | String _ _ => (None, p)
    end;
  has_stdout _ := true;
  read1 p :=
    match remaining p with
    | EmptyString => ("", p)
    | String c rest => (str1 c, mkEmitter rest)
    end
}.

(** A process whose exit status and pipe are independent: it has exited or
    not ([returncode]), whatever is left unread in its pipe ([buffered]). *)
Record Buffered : Type := mkBuffered { returncode : option Z; buffered : string }.

#[export] Instance Buffered_Popen : Popen Buffered := {
  poll p := (returncode p, p);
  has_stdout _ := true;
  read1 p :=
    match buffered p with
    | EmptyString => ("", p)
    | String c rest => (str1 c, mkBuffered (returncode p) rest)
    end
}.

(** ** Worlds to run the code in *)

(** An object whose fields [__init__] has not assigned yet. *)
Definition blank_tool : UITool := mkUITool 0 0 0 [].

(** Nothing written yet, no canvas constructed yet. *)
Definition world0 {Env} (e : Env) : World Env := mkWorld blank_tool [] e.

(** A canvas of [n] lines, just constructed on a blank terminal. *)
Definition fresh (n : Z) : World unit := snd (__init__ n (world0 tt)).

(** [w] after the further writes [evs]. *)
Definition wrote {Env} (w : World Env) (evs : list event) : World Env :=
  mkWorld (tool w) (stdout w ++ evs) (env w).

(** The banner [print_desc] puts on the footer line. *)
Definition banner (desc : string) : string :=
  ("=====" ++ " " ++ desc ++ " " ++ "=====")%string.

(** The setup of the session scope, up to the [yield]. *)
Definition setup {Env} (n : Z) (desc : string) : M Env unit :=
  CursorTool.hide_cursor ;; __init__ n ;; print_desc desc.

(** The world in which the body of a session starts. *)
Definition entered {Env} (n : Z) (desc : string) (w : World Env) : World Env :=
  snd (setup n desc w).

(** What the handler of the scope prints for the outcome of the body. *)
Definition reported {A} (r : result A) : list event :=
  match r with
  | Raise e => if is_Exception e then [Text (exn_str e ++ nl)] else []
  | _ => []
  end.

(** How the scope ends for the outcome of the body. *)
Definition scope_outcome (r : result unit) : result unit :=
  match r with
  | Raise e => if is_Exception e then Ok tt else Raise e
  | Ok _ => Ok tt
  | Hang => Hang
  end.

(** The characters [update_char] prints: all but line feed and carriage
    return. *)
Definition printable (c : ascii) : bool :=
  negb (Ascii.eqb c LF) && negb (Ascii.eqb c CR).

(** The cell in row [r], column [k] of the screen, if anything was written
    there. *)
Definition cell (t : Term) (r k : nat) : option ascii :=
  default [] (t_screen t !! r) !! k.

(** The column of a line after [update_char] with [char], from column [p]. *)
Definition next_col (char : string) (p : Z) : Z :=
  if str_in_list char [nl; cr] then 0 else p + 1.

(** The column of line [j] after a series of [update_char] calls, from
    column [p]: only the calls on line [j] count. *)
Definition replay (j : Z) (calls : list (Z * string)) (p : Z) : Z :=
  fold_left (fun q call => if Z.eqb (fst call) j then next_col (snd call) q else q)
            calls p.

(** The calls of a series that address line [j]. *)
Definition calls_on (j : Z) (calls : list (Z * string)) : list (Z * string) :=
  List.filter (fun call => Z.eqb (fst call) j) calls.

(** Three processes that have ["ab"], ["xy"] and ["12"] to write. *)
Definition three_procs : list Emitter :=
  [mkEmitter "ab"; mkEmitter "xy"; mkEmitter "12"].

(** [p.poll() is not None] for a [Buffered] handle. *)
Definition exited (p : Buffered) : bool :=
  match returncode p with
  | Some _ => true
  | None => false
  end.

(** A session body that writes one character and then fails with an
    ordinary exception, and one that is interrupted instead. *)
Definition failing_body : M unit unit :=
  update_char 0 "a" ;; raise (OtherException "boom").

Definition interrupted_body : M unit unit :=
  update_char 0 "a" ;; raise (BaseOnly "KeyboardInterrupt").

(** * Properties *)

(** ** What the canvas operations compute *)

(** The writes of [move_vertical d] and [move_horizontal d]. *)
Definition vmove (d : Z) : list event :=
  if 0 <? d then [CUD d] else if d <? 0 then [CUU (- d)] else [].

Definition hmove (d : Z) : list event :=
  if 0 <? d then [CUF d] else if d <? 0 then [CUB (- d)] else [].

(** The table has one entry per line. *)
Definition table_ok (u : UITool) : Prop :=
  length (line_pos u) = Z.to_nat (max_lines u).

(** The cursor rests on the footer line. *)
Definition at_footer (u : UITool) : Prop :=
  cur_line u = max_lines u /\ cur_col u = 0.

(** Write the characters [cs] into a row from column [c] on. *)
Fixpoint put_cells (c : nat) (cs : list ascii) (row : list ascii) : list ascii :=
  match cs with
  | [] => row
  | x :: rest => put_cells (S c) rest (put_cell c x row)
  end.

(** A cursor movement carries a count of at least 1. *)
Definition count_ok (e : event) : bool :=
  match e with
  | CUU n | CUD n | CUF n | CUB n => 0 <? n
  | _ => true
  end.

(** The canvas and the terminal agree: one table entry per line, no
    negative column, the cursor parked on the footer line and the terminal's
    cursor where the canvas believes it. *)
Definition synced {Env} (r0 c0 : nat) (w : World Env) : Prop :=
  table_ok (tool w) /\
  Forall (fun p => 0 <= p) (line_pos (tool w)) /\
  at_footer (tool w) /\
  0 <= max_lines (tool w) /\
  tracks r0 c0 (render (stdout w)) (tool w).

(** The canvas has one line per process handle. *)
Definition lines_match {P} (w : World (list P)) : Prop :=
  table_ok (tool w) /\ max_lines (tool w) = Z.of_nat (length (env w)).

(** An [Emitter] after one read. *)
Definition step_em (p : Emitter) : Emitter :=
  mkEmitter (match remaining p with
             | EmptyString => EmptyString
             | String _ rest => rest
             end).

(** The longest output still to be read. *)
Definition longest (ps : list Emitter) : nat :=
  fold_right (fun p m => Nat.max (String.length (remaining p)) m) 0%nat ps.

(** Each line of the canvas shows what has been read of its process so far:
    the row of line [i] followed by what process [i] has left to write is
    [tgt !! i], the column of the line is the length of the row, and what is
    left is printable. *)
Definition lines_show (r0 : nat) (w : World (list Emitter)) (tgt : list (list ascii)) : Prop :=
  length (env w) = length tgt /\
  forall i p, env w !! i = Some p ->
    exists row,
      default [] (t_screen (render (stdout w)) !! (r0 + i)%nat) = row /\
      line_pos (tool w) !! i = Some (Z.of_nat (length row)) /\
      tgt !! i = Some (row ++ list_ascii_of_string (remaining p)) /\
      forallb printable (list_ascii_of_string (remaining p)) = true.

(** The texts among the writes of a trace, in order. *)
Definition texts (tr : list event) : list event :=
  List.filter (fun e => negb (is_control e)) tr.

(** What one pass of the loop prints for a process: its next character, if
    it has one and the character is printable. *)
Definition first_text (p : Emitter) : list event :=
  match remaining p with
  | EmptyString => []
  | String c _ => if printable c then [Text (str1 c)] else []
  end.

Ltac step_m :=
  unfold bind, gets, modify_tool, emit, ret, raise, py_assert; simpl.

Section CanvasFacts.
Context {Env : Type}.
Implicit Types (w : World Env) (u : UITool).

Lemma move_vertical_eq d w :
  CursorTool.move_vertical d w =
  (Ok tt, mkWorld (tool w) (stdout w ++ vmove d) (env w)).
Proof.
  unfold CursorTool.move_vertical, CursorTool.move_down, CursorTool.move_up, vmove.
  destruct (0 <? d), (d <? 0); step_m; rewrite ?app_nil_r; by destruct w.
Qed.

Lemma move_horizontal_eq d w :
  CursorTool.move_horizontal d w =
  (Ok tt, mkWorld (tool w) (stdout w ++ hmove d) (env w)).
Proof.
  unfold CursorTool.move_horizontal, CursorTool.move_right, CursorTool.move_left, hmove.
  destruct (0 <? d), (d <? 0); step_m; rewrite ?app_nil_r; by destruct w.
Qed.

Lemma move_cursor_eq l c w :
  move_cursor (Some l) (Some c) w =
  (Ok tt,
   mkWorld (mkUITool (max_lines (tool w)) l c (line_pos (tool w)))
           (stdout w ++ vmove (l - cur_line (tool w)) ++ hmove (c - cur_col (tool w)))
           (env w)).
Proof.
  unfold move_cursor. step_m.
  rewrite move_vertical_eq. simpl. rewrite move_horizontal_eq. simpl.
  by rewrite <- app_assoc.
Qed.

Lemma reset_pos_eq w :
  reset_pos w =
  (Ok tt,
   mkWorld (mkUITool (max_lines (tool w)) (max_lines (tool w)) 0 (line_pos (tool w)))
           (stdout w ++ vmove (max_lines (tool w) - cur_line (tool w))
                     ++ hmove (0 - cur_col (tool w)))
           (env w)).
Proof. unfold reset_pos. step_m. by rewrite move_cursor_eq. Qed.

Lemma init_eq n w :
  __init__ n w =
  (Ok tt, mkWorld (mkUITool n n 0 (replicate (Z.to_nat n) 0))
                  (stdout w ++ vmove n) (env w)).
Proof.
  unfold __init__. step_m. rewrite reset_pos_eq. simpl.
  by rewrite Z.sub_0_r, app_nil_r.
Qed.

Lemma py_index_in_range {A} (l : list A) (i : Z) :
  0 <= i < Z.of_nat (length l) -> py_index l i = Some (Z.to_nat i).
Proof.
  intros Hi. unfold py_index.
  destruct (Z.leb_spec 0 i), (Z.ltb_spec i (Z.of_nat (length l))); simpl; (done || lia).
Qed.

Lemma table_lookup u (i : Z) :
  table_ok u -> 0 <= i < max_lines u ->
  exists p, line_pos u !! Z.to_nat i = Some p.
Proof.
  intros Hok Hi. apply lookup_lt_is_Some_2. rewrite Hok. lia.
Qed.

Lemma update_char_rejects line char w :
  ~ (0 <= line < max_lines (tool w)) ->
  update_char line char w = (Raise AssertionError, w).
Proof.
  intros Hi. unfold update_char. step_m.
  destruct (Z.leb_spec 0 line), (Z.ltb_spec line (max_lines (tool w))); simpl; (done || lia).
Qed.

Lemma update_char_newline line char w :
  table_ok (tool w) -> 0 <= line < max_lines (tool w) ->
  str_in_list char [nl; cr] = true ->
  update_char line char w =
  (Ok tt,
   mkWorld (mkUITool (max_lines (tool w)) (max_lines (tool w)) 0
                     (<[Z.to_nat line := 0]> (line_pos (tool w))))
           (stdout w ++ vmove (max_lines (tool w) - cur_line (tool w))
                     ++ hmove (0 - cur_col (tool w)))
           (env w)).
Proof.
  intros Hok Hi Hch. unfold update_char. step_m.
  destruct (Z.leb_spec 0 line), (Z.ltb_spec line (max_lines (tool w))); try lia. simpl.
  rewrite Hch. unfold line_pos_setitem. step_m.
  rewrite py_index_in_range by (rewrite Hok; lia). simpl.
  by rewrite reset_pos_eq.
Qed.

Lemma update_char_print line char p w :
  0 <= line < max_lines (tool w) ->
  line_pos (tool w) !! Z.to_nat line = Some p ->
  str_in_list char [nl; cr] = false ->
  update_char line char w =
  (Ok tt,
   mkWorld (mkUITool (max_lines (tool w)) (max_lines (tool w)) 0
                     (<[Z.to_nat line := p + 1]> (line_pos (tool w))))
           (stdout w ++ vmove (line - cur_line (tool w))
                     ++ hmove (p - cur_col (tool w))
                     ++ [Text char]
                     ++ vmove (max_lines (tool w) - line)
                     ++ hmove (0 - (p + 1)))
           (env w)).
Proof.
  intros Hi Hp Hch. unfold update_char. step_m.
  destruct (Z.leb_spec 0 line), (Z.ltb_spec line (max_lines (tool w))); try lia. simpl.
  rewrite Hch.
  assert (Hlen : 0 <= line < Z.of_nat (length (line_pos (tool w)))).
  { apply lookup_lt_Some in Hp. lia. }
  unfold line_pos_getitem. step_m.
  rewrite py_index_in_range by done. rewrite Hp. simpl.
  rewrite move_cursor_eq. simpl.
  unfold print_char. step_m.
  unfold line_pos_setitem. step_m.
  rewrite py_index_in_range by done. simpl.
  rewrite reset_pos_eq. simpl.
  by rewrite <- !app_assoc.
Qed.

Lemma update_line_rejects line content w :
  char_in_str CR content || char_in_str LF content = true ->
  update_line line content w = (Raise AssertionError, w).
Proof.
  intros Hc. unfold update_line. step_m.
  destruct (char_in_str CR content), (char_in_str LF content); done.
Qed.

Lemma update_line_eq line content w :
  char_in_str CR content || char_in_str LF content = false ->
  update_line line content w =
  (Ok tt,
   mkWorld (mkUITool (max_lines (tool w)) (max_lines (tool w)) 0 (line_pos (tool w)))
           (stdout w ++ vmove (line - cur_line (tool w))
                     ++ hmove (0 - cur_col (tool w))
                     ++ [Text content]
                     ++ vmove (max_lines (tool w) - line)
                     ++ hmove (0 - (0 + Z.of_nat (String.length content))))
           (env w)).
Proof.
  intros Hc. unfold update_line. step_m.
  destruct (char_in_str CR content), (char_in_str LF content); try done. simpl.
  rewrite move_cursor_eq. simpl.
  unfold print_line. step_m.
  rewrite reset_pos_eq. simpl.
  by rewrite <- !app_assoc.
Qed.
End CanvasFacts.

(** ** The cursor rests on the footer line *)

(** C1: the tracked cursor is at the footer position [(max_lines, 0)] once
    the constructor has run, and again after every [update_char] and every
    [update_line] call that returns normally, whatever the state the call
    started in; the constructor and both calls leave [max_lines] as given.
    This holds for every [max_lines], so for every [max_lines >= 0]. *)
Theorem cursor_at_footer_invariant {Env : Type} :
  (forall n (w : World Env),
      exists w', __init__ n w = (Ok tt, w') /\
                 max_lines (tool w') = n /\ at_footer (tool w')) /\
  (forall line char (w w' : World Env),
      update_char line char w = (Ok tt, w') ->
      max_lines (tool w') = max_lines (tool w) /\ at_footer (tool w')) /\
  (forall line content (w w' : World Env),
      update_line line content w = (Ok tt, w') ->
      max_lines (tool w') = max_lines (tool w) /\ at_footer (tool w')).
Proof.
  split; [| split].
  - intros n w. eexists. rewrite init_eq. by repeat split.
  - intros line char w w'. unfold update_char. step_m.
    destruct ((0 <=? line) && (line <? max_lines (tool w))); [simpl | done].
    destruct (str_in_list char [nl; cr]).
    + unfold line_pos_setitem. step_m.
      destruct (py_index (line_pos (tool w)) line); [simpl | done].
      rewrite reset_pos_eq. simpl. intros [= <-]. by repeat split.
    + unfold line_pos_getitem. step_m.
      destruct (py_index (line_pos (tool w)) line) as [k|]; [simpl | done].
      destruct (line_pos (tool w) !! k); [simpl | done].
      rewrite move_cursor_eq. simpl. unfold print_char. step_m.
      unfold line_pos_setitem. step_m.
      destruct (py_index (line_pos (tool w)) line); [simpl | done].
      rewrite reset_pos_eq. simpl. intros [= <-]. by repeat split.
  - intros line content w w'.
    destruct (char_in_str CR content || char_in_str LF content) eqn:Hc.
    + by rewrite update_line_rejects.
    + rewrite update_line_eq by done. intros [= <-]. by repeat split.
Qed.

Lemma cursor_at_footer_invariant_witness :
  update_char 1 "a" (fresh 2) =
    (Ok tt, mkWorld (mkUITool 2 2 0 [0; 1])
                    [CUD 2; CUU 1; Text "a"; CUD 1; CUB 1] tt) /\
  max_lines (mkUITool 2 2 0 [0; 1]) = max_lines (tool (fresh 2)) /\
  at_footer (mkUITool 2 2 0 [0; 1]).
Proof.
  split; [reflexivity |].
  exact (proj1 (proj2 (@cursor_at_footer_invariant unit)) 1 "a" (fresh 2)
               (mkWorld (mkUITool 2 2 0 [0; 1])
                        [CUD 2; CUU 1; Text "a"; CUD 1; CUB 1] tt)
               eq_refl).
Defined.

(** ** The session scope *)

Section ScopeFacts.
Context {Env : Type}.
Implicit Types (w : World Env) (body : M Env unit).

Lemma char_in_str_app c s1 s2 :
  char_in_str c (s1 ++ s2) = char_in_str c s1 || char_in_str c s2.
Proof.
  induction s1 as [|a s1 IH]; simpl; [done |].
  rewrite IH. by rewrite orb_assoc.
Qed.

Lemma banner_clean desc :
  char_in_str CR (banner desc) || char_in_str LF (banner desc) =
  char_in_str CR desc || char_in_str LF desc.
Proof.
  unfold banner. rewrite !char_in_str_app. simpl.
  by rewrite !orb_false_r.
Qed.

(** With a description free of line breaks the setup reaches the [yield]. *)
Lemma setup_ok n desc w :
  char_in_str CR desc || char_in_str LF desc = false ->
  setup n desc w = (Ok tt, entered n desc w).
Proof.
  intros Hd. unfold entered, setup, CursorTool.hide_cursor. step_m.
  rewrite init_eq. simpl. unfold print_desc. step_m.
  fold (banner desc). by rewrite update_line_eq by (by rewrite banner_clean).
Qed.

(** The world the body starts in: the canvas constructed, the cursor hidden
    and the banner on the footer line. *)
Lemma entered_eq n desc w :
  char_in_str CR desc || char_in_str LF desc = false ->
  entered n desc w =
  mkWorld (mkUITool n n 0 (replicate (Z.to_nat n) 0))
          (stdout w ++ [HideCursor] ++ vmove n ++ [Text (banner desc)]
                    ++ hmove (0 - (0 + Z.of_nat (String.length (banner desc)))))
          (env w).
Proof.
  intros Hd. unfold entered, setup, CursorTool.hide_cursor. step_m.
  rewrite init_eq. simpl. unfold print_desc. step_m.
  fold (banner desc). rewrite update_line_eq by (by rewrite banner_clean).
  cbn [snd tool stdout env max_lines cur_line cur_col line_pos].
  rewrite Z.sub_diag. cbn [vmove hmove Z.ltb Z.compare app].
  by rewrite <- !app_assoc.
Qed.

(** What the scope does, by the outcome of its body. *)
Lemma ui_tool_eq n desc body w rb wb :
  char_in_str CR desc || char_in_str LF desc = false ->
  body (entered n desc w) = (rb, wb) ->
  ui_tool n desc body w =
  match rb with
  | Hang => (Hang, wb)
  | _ => (scope_outcome rb, wrote wb (reported rb ++ [ShowCursor; Text nl]))
  end.
Proof.
  intros Hd Hb. pose proof (setup_ok n desc w Hd) as Hs.
  unfold setup, bind in Hs. unfold ui_tool, bind, try_.
  destruct (CursorTool.hide_cursor w) as [[[]| |] w0]; try done.
  unfold bind in Hs.
  destruct (__init__ n w0) as [[[]| |] w1]; try done.
  rewrite Hs, Hb.
  destruct rb as [[]|e|]; [| |done].
  - unfold teardown, CursorTool.show_cursor. step_m.
    unfold wrote. by rewrite <- app_assoc.
  - unfold reported, scope_outcome. destruct (is_Exception e).
    + unfold on_exception, teardown, CursorTool.show_cursor. step_m.
      unfold wrote. by rewrite <- !app_assoc.
    + unfold teardown, CursorTool.show_cursor. step_m.
      unfold wrote. by rewrite <- app_assoc.
Qed.

(** With a line break in the description the assertion of [update_line]
    fails during the setup: the handler and the teardown run, the body does
    not, and [contextlib] raises [RuntimeError]. *)
Lemma ui_tool_setup_fails n desc body w :
  char_in_str CR desc || char_in_str LF desc = true ->
  ui_tool n desc body w =
  (Raise (RuntimeError "generator didn't yield"),
   wrote (snd (__init__ n (wrote w [HideCursor])))
         [Text nl; ShowCursor; Text nl]).
Proof.
  intros Hd. unfold ui_tool, bind, try_, CursorTool.hide_cursor. step_m.
  rewrite init_eq. simpl. unfold print_desc. step_m.
  fold (banner desc). rewrite update_line_rejects by (by rewrite banner_clean).
  simpl. unfold on_exception, teardown, CursorTool.show_cursor. step_m.
  unfold wrote. rewrite init_eq. simpl. by rewrite <- !app_assoc.
Qed.
End ScopeFacts.

(** C3: whenever the body of a session finishes, normally or by raising any
    exception, the scope ends by writing the cursor-show sequence and then a
    line feed, after everything the body wrote (and after the message the
    handler prints for an [Exception]); nothing is written after them.  The
    same two writes end the scope when its own setup fails before the body
    could run. *)
Theorem teardown_on_every_exit {Env : Type} n desc (body : M Env unit) (w : World Env) :
  (char_in_str CR desc || char_in_str LF desc = false ->
   forall rb wb,
     body (entered n desc w) = (rb, wb) -> rb <> Hang ->
     exists r,
       ui_tool n desc body w =
       (r, wrote wb (reported rb ++ [ShowCursor; Text nl]))) /\
  (char_in_str CR desc || char_in_str LF desc = true ->
   exists r w1,
     ui_tool n desc body w = (r, wrote w1 [Text nl; ShowCursor; Text nl])) /\
  bytes_of_trace [ShowCursor; Text nl] = String ESC ("[?25h" ++ nl).
Proof.
  split; [| split].
  - intros Hd rb wb Hb Hrb. rewrite (ui_tool_eq n desc body w rb wb Hd Hb).
    destruct rb; [by eexists | by eexists | done].
  - intros Hd. rewrite ui_tool_setup_fails by done. by do 2 eexists.
  - reflexivity.
Qed.

Lemma teardown_on_every_exit_witness :
  exists r,
    ui_tool 1 "TinyUI" failing_body (world0 tt) =
    (r, wrote (snd (failing_body (entered 1 "TinyUI" (world0 tt))))
              (reported (Raise (A := unit) (OtherException "boom"))
               ++ [ShowCursor; Text nl])).
Proof.
  refine (proj1 (teardown_on_every_exit 1 "TinyUI" failing_body (world0 tt))
                _
                (Raise (OtherException "boom"))
                (snd (failing_body (entered 1 "TinyUI" (world0 tt))))
                _ _).
  - vm_compute; reflexivity.
  - vm_compute; reflexivity.
  - discriminate.
Defined.

(** C4, as the code has it: when the body of a session raises, the teardown
    (cursor-show sequence, line feed) runs before control leaves the scope.
    An exception that is an [Exception] is caught by the scope: its message
    is printed before the teardown and the [with] statement then completes
    normally.  An exception that is not an [Exception] is raised again,
    unchanged, after the teardown. *)
Theorem body_error_after_teardown {Env : Type} n desc (body : M Env unit)
    (w : World Env) e wb :
  char_in_str CR desc || char_in_str LF desc = false ->
  body (entered n desc w) = (Raise e, wb) ->
  ui_tool n desc body w =
  (if is_Exception e then Ok tt else Raise e,
   wrote wb ((if is_Exception e then [Text (exn_str e ++ nl)] else [])
             ++ [ShowCursor; Text nl])).
Proof.
  intros Hd Hb. by rewrite (ui_tool_eq n desc body w _ wb Hd Hb).
Qed.

Lemma body_error_after_teardown_witness :
  ui_tool 1 "TinyUI" failing_body (world0 tt) =
  (Ok tt,
   wrote (snd (failing_body (entered 1 "TinyUI" (world0 tt))))
         ([Text ("boom" ++ nl)] ++ [ShowCursor; Text nl])) /\
  ui_tool 1 "TinyUI" interrupted_body (world0 tt) =
  (Raise (BaseOnly "KeyboardInterrupt"),
   wrote (snd (interrupted_body (entered 1 "TinyUI" (world0 tt))))
         ([] ++ [ShowCursor; Text nl])).
Proof.
  split.
  - refine (body_error_after_teardown 1 "TinyUI" failing_body (world0 tt)
              (OtherException "boom")
              (snd (failing_body (entered 1 "TinyUI" (world0 tt))))
              _ _).
    + vm_compute; reflexivity.
    + vm_compute; reflexivity.
  - refine (body_error_after_teardown 1 "TinyUI" interrupted_body (world0 tt)
              (BaseOnly "KeyboardInterrupt")
              (snd (interrupted_body (entered 1 "TinyUI" (world0 tt))))
              _ _).
    + vm_compute; reflexivity.
    + vm_compute; reflexivity.
Defined.

(** C4 as stated fails: the body raises an exception, and the scope ends
    normally instead of raising it to its caller. *)
Lemma body_error_swallowed :
  fst (failing_body (entered 1 "TinyUI" (world0 tt))) = Raise (OtherException "boom") /\
  fst (ui_tool 1 "TinyUI" failing_body (world0 tt)) = Ok tt /\
  fst (ui_tool 1 "TinyUI" failing_body (world0 tt)) <> Raise (OtherException "boom").
Proof. repeat split; [vm_compute; reflexivity.. | vm_compute; discriminate]. Qed.

(** ** Preconditions *)

(** C7, as the code has it: [update_line] with a carriage return or a line
    feed in its content, and [update_char] with a line outside
    [0, max_lines), fail with [AssertionError] before anything is written
    and with the canvas as it was.  [print_line] checks nothing and always
    writes its content; [update_line] checks its content only, and accepts
    any line. *)
Theorem usage_errors_asserted {Env : Type} :
  (forall line content (w : World Env),
      char_in_str CR content || char_in_str LF content = true ->
      update_line line content w = (Raise AssertionError, w)) /\
  (forall line char (w : World Env),
      ~ (0 <= line < max_lines (tool w)) ->
      update_char line char w = (Raise AssertionError, w)) /\
  (forall content (w : World Env),
      print_line content w =
      (Ok tt,
       mkWorld (set_cur_col (cur_col (tool w) + Z.of_nat (String.length content)) (tool w))
               (stdout w ++ [Text content]) (env w))) /\
  (forall line content (w : World Env),
      char_in_str CR content || char_in_str LF content = false ->
      exists w', update_line line content w = (Ok tt, w')).
Proof.
  split; [| split; [| split]].
  - intros. by apply update_line_rejects.
  - intros. by apply update_char_rejects.
  - intros. reflexivity.
  - intros. rewrite update_line_eq by done. by eexists.
Qed.

Lemma usage_errors_asserted_witness :
  update_line 0 ("a" ++ nl ++ "b") (fresh 2) = (Raise AssertionError, fresh 2) /\
  update_char 2 "a" (fresh 2) = (Raise AssertionError, fresh 2).
Proof.
  split.
  - refine (proj1 (@usage_errors_asserted unit) 0 ("a" ++ nl ++ "b")%string (fresh 2) _).
    vm_compute; reflexivity.
  - refine (proj1 (proj2 (@usage_errors_asserted unit)) 2 "a" (fresh 2) _).
    vm_compute. intros [_ Hlt]. discriminate Hlt.
Defined.

(** C7 as stated fails: [print_line] writes a content with a line feed in
    it, and [update_line] writes to a line outside [0, max_lines). *)
Lemma usage_errors_unchecked :
  print_line ("a" ++ nl ++ "b") (fresh 2) =
    (Ok tt, mkWorld (mkUITool 2 2 3 [0; 0]) [CUD 2; Text ("a" ++ nl ++ "b")] tt) /\
  update_line 7 "x" (fresh 2) =
    (Ok tt, mkWorld (mkUITool 2 2 0 [0; 0])
                    [CUD 2; CUD 5; Text "x"; CUU 5; CUB 1] tt) /\
  update_line (-1) "x" (fresh 2) =
    (Ok tt, mkWorld (mkUITool 2 2 0 [0; 0])
                    [CUD 2; CUU 3; Text "x"; CUD 3; CUB 1] tt).
Proof. repeat split; vm_compute; reflexivity. Qed.

(** ** A canvas without lines *)

(** C10: [UITool(0)] is accepted: the constructor returns normally, writes
    nothing, and leaves an empty [line_pos] with the cursor believed at
    [(0, 0)]; [move_vertical(0)] and [move_horizontal(0)] write nothing; and
    on a canvas with [max_lines = 0], in whatever state, every [update_char]
    fails its assertion and leaves the world as it was. *)
Theorem zero_line_canvas {Env : Type} :
  (forall w : World Env,
      __init__ 0 w = (Ok tt, mkWorld (mkUITool 0 0 0 []) (stdout w) (env w))) /\
  (forall w : World Env,
      CursorTool.move_vertical 0 w = (Ok tt, w) /\
      CursorTool.move_horizontal 0 w = (Ok tt, w)) /\
  (forall line char cl cc lp out (e : Env),
      update_char line char (mkWorld (mkUITool 0 cl cc lp) out e) =
      (Raise AssertionError, mkWorld (mkUITool 0 cl cc lp) out e)).
Proof.
  split; [| split].
  - intros w. rewrite init_eq. simpl. by rewrite app_nil_r.
  - intros w. split; reflexivity.
  - intros. apply update_char_rejects. simpl. lia.
Qed.

(** ** The terminal under the canvas *)

Section TerminalFacts.
#[local] Arguments term_step : simpl never.

Lemma term_run_app t tr1 tr2 :
  term_run t (tr1 ++ tr2) = term_run (term_run t tr1) tr2.
Proof. apply fold_left_app. Qed.

Lemma term_run_vmove t d :
  0 <= Z.of_nat (t_row t) + d ->
  term_run t (vmove d) =
  mkTerm (Z.to_nat (Z.of_nat (t_row t) + d)) (t_col t) (t_screen t) (t_visible t).
Proof.
  intros Hd. unfold vmove.
  destruct (Z.ltb_spec 0 d); [| destruct (Z.ltb_spec d 0)];
    destruct t; cbv [term_run fold_left term_step count]; simpl in *; f_equal; lia.
Qed.

Lemma term_run_hmove t d :
  0 <= Z.of_nat (t_col t) + d ->
  term_run t (hmove d) =
  mkTerm (t_row t) (Z.to_nat (Z.of_nat (t_col t) + d)) (t_screen t) (t_visible t).
Proof.
  intros Hd. unfold hmove.
  destruct (Z.ltb_spec 0 d); [| destruct (Z.ltb_spec d 0)];
    destruct t; cbv [term_run fold_left term_step count]; simpl in *; f_equal; lia.
Qed.

(** Moving the believed cursor to [(l, c)] takes the real one along. *)
Lemma term_run_move r0 c0 t u l c :
  tracks r0 c0 t u ->
  0 <= Z.of_nat r0 + l -> 0 <= Z.of_nat c0 + c ->
  term_run t (vmove (l - cur_line u) ++ hmove (c - cur_col u)) =
  mkTerm (Z.to_nat (Z.of_nat r0 + l)) (Z.to_nat (Z.of_nat c0 + c))
         (t_screen t) (t_visible t).
Proof.
  intros [Hr Hc] Hl Hcol. rewrite term_run_app.
  rewrite term_run_vmove by lia. rewrite term_run_hmove by (simpl; lia).
  simpl. f_equal; lia.
Qed.

Lemma printable_spec c : printable c = true <-> c <> LF /\ c <> CR.
Proof.
  unfold printable. rewrite andb_true_iff, !negb_true_iff, !Ascii.eqb_neq. tauto.
Qed.

Lemma printable_not_newline c :
  printable c = true -> str_in_list (str1 c) [nl; cr] = false.
Proof.
  intros [Hlf Hcr]%printable_spec. unfold str_in_list, nl, cr, str1. simpl.
  apply Ascii.eqb_neq in Hlf, Hcr. by rewrite Hlf, Hcr.
Qed.

Lemma term_step_char t c :
  printable c = true ->
  term_step t (Text (str1 c)) =
  mkTerm (t_row t) (S (t_col t))
         (<[t_row t := put_cell (t_col t) c (default [] (t_screen t !! t_row t))]>
            (t_screen t))
         (t_visible t).
Proof.
  intros [Hlf Hcr]%printable_spec. unfold term_step. simpl. unfold term_char.
  apply Ascii.eqb_neq in Hlf, Hcr. by rewrite Hlf, Hcr.
Qed.

Lemma put_cell_lookup k x (row : list ascii) : put_cell k x row !! k = Some x.
Proof.
  unfold put_cell. destruct (Nat.ltb_spec k (length row)).
  - by apply list_lookup_insert_eq.
  - rewrite lookup_app_r by lia. rewrite lookup_app_r by (rewrite length_replicate; lia).
    rewrite length_replicate.
    by replace (k - length row - (k - length row))%nat with 0%nat by lia.
Qed.

Lemma put_cell_end x (row : list ascii) : put_cell (length row) x row = row ++ [x].
Proof.
  unfold put_cell. rewrite Nat.ltb_irrefl.
  by replace (length row - length row)%nat with 0%nat by lia.
Qed.

(** The terminal across the writes of one printing [update_char]. *)
Lemma term_run_print r0 c0 t u n i p c :
  tracks r0 c0 t u ->
  0 <= i <= n -> 0 <= p -> printable c = true ->
  term_run t (vmove (i - cur_line u) ++ hmove (p - cur_col u)
              ++ [Text (str1 c)] ++ vmove (n - i) ++ hmove (0 - (p + 1))) =
  mkTerm (r0 + Z.to_nat n) c0
         (<[(r0 + Z.to_nat i)%nat :=
              put_cell (c0 + Z.to_nat p) c
                (default [] (t_screen t !! (r0 + Z.to_nat i)%nat))]> (t_screen t))
         (t_visible t).
Proof.
  intros Htr Hi Hp Hc.
  rewrite (app_assoc (vmove _)), term_run_app.
  rewrite (term_run_move r0 c0) by (done || lia).
  rewrite term_run_app. simpl. rewrite term_step_char by done. simpl.
  rewrite term_run_app, term_run_vmove by (simpl; lia).
  rewrite term_run_hmove by (simpl; lia). simpl.
  replace (Z.to_nat (Z.of_nat r0 + i)) with (r0 + Z.to_nat i)%nat by lia.
  replace (Z.to_nat (Z.of_nat c0 + p)) with (c0 + Z.to_nat p)%nat by lia.
  f_equal; lia.
Qed.

Lemma render_app tr1 tr2 : render (tr1 ++ tr2) = term_run (render tr1) tr2.
Proof. apply term_run_app. Qed.

Lemma vmove_control d : forallb is_control (vmove d) = true.
Proof. unfold vmove. by destruct (0 <? d), (d <? 0). Qed.

Lemma hmove_control d : forallb is_control (hmove d) = true.
Proof. unfold hmove. by destruct (0 <? d), (d <? 0). Qed.
End TerminalFacts.

(** ** Lines and their columns *)

Section LineFacts.
Context {Env : Type}.
Implicit Types (w : World Env).

(** [update_char] on a well-formed canvas: it returns normally and sets the
    column of its line to [next_col]; the other entries stay. *)
Lemma update_char_ok line char p w :
  0 <= line < max_lines (tool w) ->
  line_pos (tool w) !! Z.to_nat line = Some p ->
  exists evs,
    update_char line char w =
    (Ok tt,
     mkWorld (mkUITool (max_lines (tool w)) (max_lines (tool w)) 0
                       (<[Z.to_nat line := next_col char p]> (line_pos (tool w))))
             (stdout w ++ evs) (env w)).
Proof.
  intros Hi Hp. unfold next_col.
  destruct (str_in_list char [nl; cr]) eqn:Hch.
  - assert (Hlen : 0 <= line < Z.of_nat (length (line_pos (tool w)))).
    { apply lookup_lt_Some in Hp. lia. }
    eexists. unfold update_char. step_m.
    destruct (Z.leb_spec 0 line), (Z.ltb_spec line (max_lines (tool w))); try lia. simpl.
    rewrite Hch. unfold line_pos_setitem. step_m.
    rewrite py_index_in_range by done. simpl.
    by rewrite reset_pos_eq.
  - eexists. by rewrite (update_char_print line char p).
Qed.

(** The table keeps one entry per line: the constructor makes it so, and
    [update_char] and [update_line] keep it so, however they end. *)
Lemma table_ok_init n w : table_ok (tool (snd (__init__ n w))).
Proof. rewrite init_eq. unfold table_ok. simpl. by rewrite length_replicate. Qed.

Lemma table_ok_update_char line char w r w' :
  table_ok (tool w) -> update_char line char w = (r, w') -> table_ok (tool w').
Proof.
  intros Hok.
  destruct (decide (0 <= line < max_lines (tool w))) as [Hi | Hi].
  - destruct (table_lookup (tool w) line Hok Hi) as [q Hq].
    destruct (update_char_ok line char q w Hi Hq) as [evs ->].
    intros [= _ <-]. unfold table_ok in *. simpl. by rewrite length_insert.
  - rewrite update_char_rejects by done. by intros [= _ <-].
Qed.

Lemma table_ok_update_line line content w r w' :
  table_ok (tool w) -> update_line line content w = (r, w') -> table_ok (tool w').
Proof.
  intros Hok.
  destruct (char_in_str CR content || char_in_str LF content) eqn:Hc.
  - rewrite update_line_rejects by done. by intros [= _ <-].
  - rewrite update_line_eq by done. by intros [= _ <-].
Qed.

Lemma replay_calls_on j calls p : replay j (calls_on j calls) p = replay j calls p.
Proof.
  revert p. induction calls as [|[l ch] calls IH]; intros p; [done |].
  unfold calls_on, replay in *. simpl.
  destruct (l =? j) eqn:Hl; simpl; [rewrite Hl |]; apply IH.
Qed.

Lemma replay_cons j l ch calls p :
  replay j ((l, ch) :: calls) p =
  replay j calls (if l =? j then next_col ch p else p).
Proof. reflexivity. Qed.

Lemma update_chars_replay calls : forall w j p,
  table_ok (tool w) ->
  Forall (fun call => 0 <= fst call < max_lines (tool w)) calls ->
  0 <= j < max_lines (tool w) ->
  line_pos (tool w) !! Z.to_nat j = Some p ->
  exists w',
    update_chars calls w = (Ok tt, w') /\
    line_pos (tool w') !! Z.to_nat j = Some (replay j calls p).
Proof.
  induction calls as [|[l ch] calls IH]; intros w j p Hok Hall Hj Hp.
  - exists w. by destruct w.
  - inversion Hall as [|? ? Hl Hrest]; subst. simpl in Hl.
    destruct (table_lookup (tool w) l Hok Hl) as [q Hq].
    destruct (update_char_ok l ch q w Hl Hq) as [evs Hstep].
    cbn [update_chars]. unfold bind. rewrite Hstep.
    set (w1 := mkWorld _ _ _).
    assert (Hok1 : table_ok (tool w1)).
    { unfold table_ok in *. simpl. by rewrite length_insert. }
    destruct (Z.eqb_spec l j) as [->|Hne].
    + destruct (IH w1 j (next_col ch q) Hok1 Hrest Hj) as [w' [Hrun Hcol]].
      { simpl. apply list_lookup_insert_eq. by apply lookup_lt_Some in Hq. }
      exists w'. split; [done |].
      rewrite Hcol, replay_cons, Z.eqb_refl.
      rewrite Hp in Hq. by injection Hq as ->.
    + destruct (IH w1 j p Hok1 Hrest Hj) as [w' [Hrun Hcol]].
      { simpl. rewrite list_lookup_insert_ne by lia. done. }
      exists w'. split; [done |].
      rewrite Hcol, replay_cons.
      by destruct (Z.eqb_spec l j).
Qed.
End LineFacts.

(** C9: on a well-formed canvas [update_char] on line [i] returns normally
    and leaves the column of every other line [j] as it was; and after any
    series of [update_char] calls on lines of the canvas, the column of
    each line [j] is the one that the calls on line [j] alone produce. *)
Theorem lines_are_independent {Env : Type} (w : World Env) j :
  table_ok (tool w) ->
  0 <= j < max_lines (tool w) ->
  (forall i char,
      0 <= i < max_lines (tool w) -> i <> j ->
      exists w',
        update_char i char w = (Ok tt, w') /\
        line_pos (tool w') !! Z.to_nat j = line_pos (tool w) !! Z.to_nat j) /\
  (forall calls,
      Forall (fun call => 0 <= fst call < max_lines (tool w)) calls ->
      exists w1 w2,
        update_chars calls w = (Ok tt, w1) /\
        update_chars (calls_on j calls) w = (Ok tt, w2) /\
        line_pos (tool w1) !! Z.to_nat j = line_pos (tool w2) !! Z.to_nat j).
Proof.
  intros Hok Hj. split.
  - intros i char Hi Hne.
    destruct (table_lookup (tool w) i Hok Hi) as [q Hq].
    destruct (update_char_ok i char q w Hi Hq) as [evs Hstep].
    eexists. split; [exact Hstep |]. simpl.
    rewrite list_lookup_insert_ne by lia. done.
  - intros calls Hall.
    destruct (table_lookup (tool w) j Hok Hj) as [p Hp].
    destruct (update_chars_replay calls w j p Hok Hall Hj Hp) as [w1 [Hrun1 Hcol1]].
    assert (Hall' : Forall (fun call => 0 <= fst call < max_lines (tool w))
                           (calls_on j calls)).
    { unfold calls_on. apply List.Forall_forall.
      intros call [Hin _]%filter_In. revert call Hin.
      by apply List.Forall_forall. }
    destruct (update_chars_replay _ w j p Hok Hall' Hj Hp) as [w2 [Hrun2 Hcol2]].
    exists w1, w2. repeat split; [done.. |].
    by rewrite Hcol1, Hcol2, replay_calls_on.
Qed.

Lemma lines_are_independent_witness :
  exists w1 w2,
    update_chars [(0, "a"); (1, "x"); (0, "b"); (1, nl); (0, "c")] (fresh 2) = (Ok tt, w1) /\
    update_chars (calls_on 1 [(0, "a"); (1, "x"); (0, "b"); (1, nl); (0, "c")]) (fresh 2)
      = (Ok tt, w2) /\
    line_pos (tool w1) !! Z.to_nat 1 = line_pos (tool w2) !! Z.to_nat 1.
Proof.
  refine (proj2 (lines_are_independent (fresh 2) 1 _ _)
                [(0, "a"); (1, "x"); (0, "b"); (1, nl); (0, "c")] _).
  - reflexivity.
  - vm_compute. split; [discriminate | reflexivity].
  - repeat constructor; vm_compute; discriminate.
Defined.

(** ** What reaches the screen *)

Section ScreenFacts.
Context {Env : Type}.
Implicit Types (w : World Env).

(** A run of printable characters on line [i] extends what the line shows,
    when the column of the line is the length of what it shows. *)
Lemma update_chars_extend r0 i cs : forall w row,
  table_ok (tool w) ->
  tracks r0 0 (render (stdout w)) (tool w) ->
  0 <= i < max_lines (tool w) ->
  forallb printable cs = true ->
  default [] (t_screen (render (stdout w)) !! (r0 + Z.to_nat i)%nat) = row ->
  line_pos (tool w) !! Z.to_nat i = Some (Z.of_nat (length row)) ->
  exists w',
    update_chars (map (fun c => (i, str1 c)) cs) w = (Ok tt, w') /\
    default [] (t_screen (render (stdout w')) !! (r0 + Z.to_nat i)%nat) = row ++ cs /\
    line_pos (tool w') !! Z.to_nat i = Some (Z.of_nat (length (row ++ cs))).
Proof.
  induction cs as [|c cs IH]; intros w row Hok Htr Hi Hcs Hrow Hcol.
  - exists w. rewrite app_nil_r. by destruct w.
  - simpl in Hcs. apply andb_true_iff in Hcs as [Hc Hcs].
    cbn [map update_chars]. unfold bind.
    rewrite (update_char_print i (str1 c) (Z.of_nat (length row)))
      by (done || by apply printable_not_newline).
    set (w1 := mkWorld _ _ _).
    assert (Hrender : render (stdout w1) =
              mkTerm (r0 + Z.to_nat (max_lines (tool w))) 0
                     (<[(r0 + Z.to_nat i)%nat := row ++ [c]]>
                        (t_screen (render (stdout w))))
                     (t_visible (render (stdout w)))).
    { unfold w1. cbn [stdout]. rewrite render_app.
      rewrite (term_run_print r0 0) by (done || lia).
      rewrite Hrow. simpl. rewrite Nat2Z.id. by rewrite put_cell_end. }
    destruct (IH w1 (row ++ [c])) as [w' [Hrun [Hshow Hcol']]].
    + unfold table_ok in *. simpl. by rewrite length_insert.
    + rewrite Hrender. split; simpl; lia.
    + done.
    + done.
    + rewrite Hrender. simpl. by rewrite lookup_insert_eq.
    + simpl. rewrite list_lookup_insert_eq by (by apply lookup_lt_Some in Hcol).
      f_equal. rewrite length_app. simpl. lia.
    + exists w'. rewrite <- app_assoc in Hshow, Hcol'. done.
Qed.
End ScreenFacts.

(** C6: on a canvas of [n] lines just constructed, with the terminal's
    cursor in column 0 and nothing yet on the row of line [i], any [N]
    calls [update_char(i, c)] with printable characters all return
    normally; afterwards the row of line [i] shows the [N] characters in the
    order of the calls, and [line_pos[i]] is [N]. *)
Theorem printable_run_is_shown {Env : Type} (u0 : UITool) (pre : list event) (e : Env)
    n i cs :
  0 <= i < n ->
  forallb printable cs = true ->
  t_col (render pre) = 0%nat ->
  t_screen (render pre) !! (t_row (render pre) + Z.to_nat i)%nat = None ->
  exists w,
    update_chars (map (fun c => (i, str1 c)) cs) (snd (__init__ n (mkWorld u0 pre e)))
      = (Ok tt, w) /\
    row_text (render (stdout w)) (t_row (render pre) + Z.to_nat i)
      = string_of_list_ascii cs /\
    line_pos (tool w) !! Z.to_nat i = Some (Z.of_nat (length cs)).
Proof.
  intros Hi Hcs Hcol Hblank. rewrite init_eq. cbn [snd stdout env].
  set (w0 := mkWorld _ _ _).
  assert (Hrender : render (stdout w0) =
            mkTerm (t_row (render pre) + Z.to_nat n) 0
                   (t_screen (render pre)) (t_visible (render pre))).
  { unfold w0. cbn [stdout]. rewrite render_app, term_run_vmove by lia.
    rewrite Hcol. f_equal. lia. }
  destruct (update_chars_extend (t_row (render pre)) i cs w0 [])
    as [w [Hrun [Hshow Hlen]]].
  - unfold table_ok. simpl. by rewrite length_replicate.
  - rewrite Hrender. split; simpl; lia.
  - simpl. lia.
  - done.
  - rewrite Hrender. simpl. by rewrite Hblank.
  - simpl. apply lookup_replicate_2. lia.
  - exists w. unfold row_text. by rewrite Hshow.
Qed.

Lemma printable_run_is_shown_witness :
  exists w,
    update_chars (map (fun c => (1, str1 c)) ["4"; "2"; "%"]%char)
                 (snd (__init__ 3 (mkWorld blank_tool [HideCursor] tt)))
      = (Ok tt, w) /\
    row_text (render (stdout w)) (t_row (render [HideCursor]) + Z.to_nat 1)
      = string_of_list_ascii ["4"; "2"; "%"]%char /\
    line_pos (tool w) !! Z.to_nat 1 = Some (Z.of_nat (length ["4"; "2"; "%"]%char)).
Proof.
  refine (printable_run_is_shown blank_tool [HideCursor] tt 3 1 ["4"; "2"; "%"]%char
            _ _ _ _).
  - lia.
  - vm_compute; reflexivity.
  - vm_compute; reflexivity.
  - vm_compute; reflexivity.
Defined.

(** C5: on a well-formed canvas whose cursor belief matches the terminal,
    [update_char(i, ch)] with [ch] a line feed or a carriage return returns
    normally, sets [line_pos[i]] to 0, writes cursor movements only and
    leaves the screen as it was; the next [update_char(i, c)] with a
    printable [c] moves to line [i] without any horizontal move, writes [c]
    there, and [c] lands in column 0 of line [i] on the screen. *)
Theorem newline_resets_line {Env : Type} (w : World Env) r0 c0 i char c :
  table_ok (tool w) ->
  tracks r0 c0 (render (stdout w)) (tool w) ->
  0 <= i < max_lines (tool w) ->
  char = nl \/ char = cr ->
  printable c = true ->
  exists moves w1 w2,
    update_char i char w = (Ok tt, w1) /\
    line_pos (tool w1) !! Z.to_nat i = Some 0 /\
    stdout w1 = stdout w ++ moves /\
    forallb is_control moves = true /\
    t_screen (render (stdout w1)) = t_screen (render (stdout w)) /\
    update_char i (str1 c) w1 = (Ok tt, w2) /\
    stdout w2 = stdout w1 ++ vmove (i - max_lines (tool w)) ++ [Text (str1 c)]
                          ++ vmove (max_lines (tool w) - i) ++ [CUB 1] /\
    cell (render (stdout w2)) (r0 + Z.to_nat i) c0 = Some c /\
    line_pos (tool w2) !! Z.to_nat i = Some 1.
Proof.
  intros Hok Htr Hi Hch Hc.
  assert (Hin : str_in_list char [nl; cr] = true) by (by destruct Hch as [-> | ->]).
  assert (Hlen : (Z.to_nat i < length (line_pos (tool w)))%nat)
    by (rewrite Hok; lia).
  rewrite (update_char_newline i char w Hok Hi Hin).
  set (moves := vmove _ ++ hmove _).
  set (w1 := mkWorld _ _ _).
  assert (Hcol1 : line_pos (tool w1) !! Z.to_nat i = Some 0)
    by (by apply list_lookup_insert_eq).
  assert (Hrender1 : render (stdout w1) =
            mkTerm (Z.to_nat (Z.of_nat r0 + max_lines (tool w)))
                   (Z.to_nat (Z.of_nat c0 + 0))
                   (t_screen (render (stdout w))) (t_visible (render (stdout w)))).
  { unfold w1, moves. cbn [stdout]. rewrite render_app.
    by rewrite (term_run_move r0 c0) by (done || lia). }
  assert (Htr1 : tracks r0 c0 (render (stdout w1)) (tool w1)).
  { rewrite Hrender1. split; simpl; lia. }
  pose proof (update_char_print i (str1 c) 0 w1 Hi Hcol1
                (printable_not_newline c Hc)) as Hstep2.
  set (w2 := mkWorld _ _ _) in Hstep2.
  assert (Hctl : forallb is_control moves = true).
  { unfold moves. by rewrite forallb_app, vmove_control, hmove_control. }
  assert (Hout2 : stdout w2 = stdout w1 ++ vmove (i - max_lines (tool w))
                    ++ [Text (str1 c)] ++ vmove (max_lines (tool w) - i) ++ [CUB 1]).
  { unfold w2. cbn [stdout tool max_lines cur_line cur_col w1].
    by rewrite Z.sub_diag. }
  assert (Hcell : cell (render (stdout w2)) (r0 + Z.to_nat i) c0 = Some c).
  { unfold w2, cell. cbn [stdout]. rewrite render_app.
    rewrite (term_run_print r0 c0) by (done || simpl; lia). cbn [t_screen].
    rewrite lookup_insert_eq. cbn [default Z.to_nat].
    rewrite Nat.add_0_r. apply put_cell_lookup. }
  assert (Hcol2 : line_pos (tool w2) !! Z.to_nat i = Some 1).
  { unfold w2. cbn [tool line_pos].
    apply list_lookup_insert_eq. unfold w1. cbn [tool line_pos].
    by rewrite length_insert. }
  exists moves, w1, w2. rewrite Hrender1. done.
Qed.

Lemma newline_resets_line_witness :
  exists moves w1 w2,
    update_char 1 cr (snd (update_chars [(1, "a"); (1, "b")] (fresh 2))) = (Ok tt, w1) /\
    line_pos (tool w1) !! Z.to_nat 1 = Some 0 /\
    stdout w1 = stdout (snd (update_chars [(1, "a"); (1, "b")] (fresh 2))) ++ moves /\
    forallb is_control moves = true /\
    t_screen (render (stdout w1)) =
      t_screen (render (stdout (snd (update_chars [(1, "a"); (1, "b")] (fresh 2))))) /\
    update_char 1 (str1 "c") w1 = (Ok tt, w2) /\
    stdout w2 =
      stdout w1
      ++ vmove (1 - max_lines (tool (snd (update_chars [(1, "a"); (1, "b")] (fresh 2)))))
      ++ [Text (str1 "c")]
      ++ vmove (max_lines (tool (snd (update_chars [(1, "a"); (1, "b")] (fresh 2)))) - 1)
      ++ [CUB 1] /\
    cell (render (stdout w2)) (0 + Z.to_nat 1) 0 = Some "c"%char /\
    line_pos (tool w2) !! Z.to_nat 1 = Some 1.
Proof.
  refine (newline_resets_line (snd (update_chars [(1, "a"); (1, "b")] (fresh 2)))
            0 0 1 cr "c" _ _ _ _ _).
  - reflexivity.
  - vm_compute. split; reflexivity.
  - vm_compute. split; [discriminate | reflexivity].
  - right. reflexivity.
  - reflexivity.
Defined.

(** ** The multiplexing loop *)

(** C2: with three handles that have ["ab"], ["xy"] and ["12"] to write and
    report exited once read, [_ui_thread] returns normally for every bound
    of at least three evaluations of the loop condition; afterwards the
    rows of lines 0, 1 and 2 show ["ab"], ["xy"] and ["12"], [line_pos] is
    [[2; 2; 2]], the characters were written in the order produced, line by
    line in turn, and nothing is left to read. *)
Theorem three_emitters_are_shown (u0 : UITool) (k : nat) :
  let run := _ui_thread (3 + k) (mkWorld u0 [] three_procs) in
  fst run = Ok tt /\
  line_pos (tool (snd run)) = [2; 2; 2] /\
  row_text (render (stdout (snd run))) 0 = "ab" /\
  row_text (render (stdout (snd run))) 1 = "xy" /\
  row_text (render (stdout (snd run))) 2 = "12" /\
  List.filter (fun e => negb (is_control e)) (stdout (snd run)) =
    [Text (banner "TinyUI"); Text "a"; Text "x"; Text "1";
     Text "b"; Text "y"; Text "2"; Text nl] /\
  env (snd run) = [mkEmitter ""; mkEmitter ""; mkEmitter ""].
Proof. intros run. subst run. repeat split; vm_compute; reflexivity. Qed.

Section LoopFacts.
Context {P : Type} `{Popen P}.

(** When every poll reports a return code, the loop is over: nothing is
    read, nothing is written. *)
Lemma ui_loop_all_exited fuel (w : World (list P)) ps' :
  poll_all (env w) = (true, ps') ->
  ui_loop (S fuel) w = (Ok tt, mkWorld (tool w) (stdout w) ps').
Proof.
  intros Hpoll. cbn [ui_loop]. unfold bind, all_exited. by rewrite Hpoll.
Qed.
End LoopFacts.

Lemma poll_all_buffered (ps : list Buffered) :
  forallb exited ps = true -> poll_all ps = (true, ps).
Proof.
  induction ps as [|p ps IH]; [done |].
  simpl. intros [Hp Hps]%andb_true_iff. unfold exited in Hp.
  destruct (returncode p); [| done]. by rewrite IH.
Qed.

(** C8: the loop returns at the first evaluation of its condition in which
    every poll reports a return code, with the canvas and the output as
    they were and the handles as the polls left them: no read is attempted.
    For handles that have exited with output still in their pipes, the
    loop and the whole of [_ui_thread] leave the pipes as they were, and
    [_ui_thread] writes the banner and the teardown only. *)
Theorem exited_processes_are_not_drained :
  (forall (P : Type) (HP : Popen P) fuel (w : World (list P)) ps',
      poll_all (env w) = (true, ps') ->
      ui_loop (S fuel) w = (Ok tt, mkWorld (tool w) (stdout w) ps')) /\
  (forall fuel u out (procs : list Buffered),
      forallb exited procs = true ->
      ui_loop (S fuel) (mkWorld u out procs) = (Ok tt, mkWorld u out procs) /\
      _ui_thread (S fuel) (mkWorld u out procs) =
        (Ok tt,
         wrote (entered (Z.of_nat (length procs)) "TinyUI" (mkWorld u out procs))
               [ShowCursor; Text nl]) /\
      env (entered (Z.of_nat (length procs)) "TinyUI" (mkWorld u out procs)) = procs).
Proof.
  split.
  - intros P HP fuel w ps'. apply ui_loop_all_exited.
  - intros fuel u out procs Hex.
    assert (Henv : env (entered (Z.of_nat (length procs)) "TinyUI" (mkWorld u out procs))
                   = procs).
    { by rewrite entered_eq. }
    split; [| split; [| done]].
    + apply (ui_loop_all_exited fuel (mkWorld u out procs)).
      by apply poll_all_buffered.
    + unfold _ui_thread. cbn [env].
      erewrite ui_tool_eq; [| done |].
      2: { apply ui_loop_all_exited. rewrite Henv. by apply poll_all_buffered. }
      cbn [scope_outcome reported app]. f_equal. unfold wrote. cbn [tool stdout env].
      f_equal. destruct (entered _ _ _) as [t o e2] eqn:He. simpl in *. by subst.
Qed.

Lemma exited_processes_are_not_drained_witness :
  ui_loop 1 (mkWorld blank_tool [] [mkBuffered (Some 0) "ab"; mkBuffered (Some 1) "xy"]) =
    (Ok tt, mkWorld blank_tool [] [mkBuffered (Some 0) "ab"; mkBuffered (Some 1) "xy"]) /\
  _ui_thread 1 (mkWorld blank_tool [] [mkBuffered (Some 0) "ab"; mkBuffered (Some 1) "xy"]) =
    (Ok tt,
     wrote (entered (Z.of_nat (length [mkBuffered (Some 0) "ab"; mkBuffered (Some 1) "xy"]))
                    "TinyUI"
                    (mkWorld blank_tool []
                             [mkBuffered (Some 0) "ab"; mkBuffered (Some 1) "xy"]))
           [ShowCursor; Text nl]) /\
  env (entered (Z.of_nat (length [mkBuffered (Some 0) "ab"; mkBuffered (Some 1) "xy"]))
               "TinyUI"
               (mkWorld blank_tool []
                        [mkBuffered (Some 0) "ab"; mkBuffered (Some 1) "xy"])) =
    [mkBuffered (Some 0) "ab"; mkBuffered (Some 1) "xy"].
Proof.
  exact (proj2 exited_processes_are_not_drained 0%nat blank_tool []
               [mkBuffered (Some 0) "ab"; mkBuffered (Some 1) "xy"] eq_refl).
Defined.

(** ** Text on the terminal *)

Section TextFacts.

Lemma put_cell_length c x (row : list ascii) :
  length (put_cell c x row) = Nat.max (length row) (S c).
Proof.
  unfold put_cell. destruct (Nat.ltb_spec c (length row)).
  - rewrite length_insert. lia.
  - rewrite !length_app, length_replicate. simpl. lia.
Qed.

Lemma put_cell_within c x (row : list ascii) :
  (c <= length row)%nat ->
  put_cell c x row = (take c row ++ [x]) ++ drop (S c) row.
Proof.
  intros Hc. unfold put_cell. destruct (Nat.ltb_spec c (length row)) as [Hlt | Hge].
  - rewrite insert_take_drop by done. by rewrite <- app_assoc.
  - replace (c - length row)%nat with 0%nat by lia.
    rewrite take_ge by lia. rewrite drop_ge by lia. simpl. by rewrite app_nil_r.
Qed.

Lemma put_cells_within cs : forall c (row : list ascii),
  (c <= length row)%nat ->
  put_cells c cs row = take c row ++ cs ++ drop (c + length cs) row.
Proof.
  induction cs as [|x cs IH]; intros c row Hc.
  - simpl. by rewrite Nat.add_0_r, take_drop.
  - cbn [put_cells]. rewrite IH by (rewrite put_cell_length; lia).
    rewrite put_cell_within by done.
    assert (Hlen : length (take c row ++ [x]) = S c).
    { rewrite length_app, length_take. simpl. lia. }
    rewrite take_app_length' by done.
    rewrite drop_app_ge by lia. rewrite Hlen, drop_drop.
    rewrite <- app_assoc. simpl.
    by replace (S (c + (c + length cs - c))) with (c + S (length cs))%nat by lia.
Qed.

(** A text without line breaks fills one cell per character, from the
    cursor on, in the cursor's row. *)
Lemma term_text_printable cs : forall t,
  forallb printable cs = true ->
  let t' := fold_left term_char cs t in
  t_row t' = t_row t /\
  t_col t' = (t_col t + length cs)%nat /\
  t_visible t' = t_visible t /\
  default [] (t_screen t' !! t_row t) =
    put_cells (t_col t) cs (default [] (t_screen t !! t_row t)) /\
  (forall r, r <> t_row t -> t_screen t' !! r = t_screen t !! r).
Proof.
  induction cs as [|x cs IH]; intros t Hcs.
  - simpl. repeat split; (done || lia).
  - simpl in Hcs. apply andb_true_iff in Hcs as [Hx Hcs].
    cbn [fold_left].
    assert (Hstep : term_char t x =
              mkTerm (t_row t) (S (t_col t))
                     (<[t_row t := put_cell (t_col t) x (default [] (t_screen t !! t_row t))]>
                        (t_screen t))
                     (t_visible t)).
    { apply printable_spec in Hx as [Hlf Hcr]. unfold term_char.
      apply Ascii.eqb_neq in Hlf, Hcr. by rewrite Hlf, Hcr. }
    rewrite Hstep.
    destruct (IH (mkTerm (t_row t) (S (t_col t))
                     (<[t_row t := put_cell (t_col t) x (default [] (t_screen t !! t_row t))]>
                        (t_screen t))
                     (t_visible t)) Hcs) as (Hr & Hc & Hv & Hrow & Hother).
    cbn [t_row t_col t_screen t_visible] in *.
    repeat split.
    + done.
    + rewrite Hc. simpl. lia.
    + done.
    + rewrite Hrow. by rewrite lookup_insert_eq.
    + intros r Hne. rewrite Hother by done. by rewrite lookup_insert_ne.
Qed.

Lemma clean_is_printable s :
  char_in_str CR s || char_in_str LF s = false ->
  forallb printable (list_ascii_of_string s) = true.
Proof.
  induction s as [|x s IH]; [done |].
  cbn [char_in_str list_ascii_of_string forallb].
  intros Hc. apply orb_false_iff in Hc as [Hcr Hlf].
  apply orb_false_iff in Hcr as [Hx1 Hcr]. apply orb_false_iff in Hlf as [Hx2 Hlf].
  rewrite IH by (by rewrite Hcr, Hlf).
  unfold printable. rewrite (Ascii.eqb_sym x LF), (Ascii.eqb_sym x CR).
  by rewrite Hx1, Hx2.
Qed.

Lemma length_list_ascii s : length (list_ascii_of_string s) = String.length s.
Proof. induction s; simpl; congruence. Qed.
End TextFacts.

(** ** The canvas on the screen *)

Section SyncFacts.
Context {Env : Type}.
Implicit Types (w : World Env).

Lemma not_printable_is_newline c :
  printable c = false -> str_in_list (str1 c) [nl; cr] = true.
Proof.
  unfold printable, str_in_list, nl, cr, str1. simpl.
  destruct (Ascii.eqb c LF), (Ascii.eqb c CR); done.
Qed.

Lemma printable_string_not_newline s :
  forallb printable (list_ascii_of_string s) = true ->
  str_in_list s [nl; cr] = false.
Proof.
  intros Hs. unfold str_in_list. simpl.
  destruct (String.eqb_spec s nl) as [-> | _]; [done |].
  destruct (String.eqb_spec s cr) as [-> | _]; done.
Qed.

(** The terminal across the writes of [update_line], the text being free of
    line breaks. *)
Lemma term_run_update_line r0 c0 t u n line content :
  tracks r0 c0 t u ->
  0 <= line -> 0 <= n ->
  forallb printable (list_ascii_of_string content) = true ->
  let t' := term_run t (vmove (line - cur_line u) ++ hmove (0 - cur_col u)
                        ++ [Text content] ++ vmove (n - line)
                        ++ hmove (0 - (0 + Z.of_nat (String.length content)))) in
  t_row t' = (r0 + Z.to_nat n)%nat /\
  t_col t' = c0 /\
  t_visible t' = t_visible t /\
  default [] (t_screen t' !! (r0 + Z.to_nat line)%nat) =
    put_cells c0 (list_ascii_of_string content)
              (default [] (t_screen t !! (r0 + Z.to_nat line)%nat)) /\
  (forall r, r <> (r0 + Z.to_nat line)%nat -> t_screen t' !! r = t_screen t !! r).
Proof.
  intros Htr Hline Hn Hclean t'. subst t'.
  rewrite (app_assoc (vmove _)), term_run_app.
  rewrite (term_run_move r0 c0) by (done || lia).
  rewrite term_run_app.
  change (term_run ?t [Text content])
    with (fold_left term_char (list_ascii_of_string content) t).
  set (t1 := mkTerm _ _ _ _).
  destruct (term_text_printable (list_ascii_of_string content) t1 Hclean)
    as (Hr & Hc & Hv & Hrow & Hother).
  set (t2 := fold_left term_char _ t1) in *.
  rewrite term_run_app, term_run_vmove by (rewrite Hr; simpl; lia).
  rewrite term_run_hmove by (cbn [t_col]; rewrite Hc, length_list_ascii; simpl; lia).
  cbn [t_row t_col t_screen t_visible].
  rewrite Hr, Hc, Hv, length_list_ascii. subst t1. cbn [t_row t_col t_screen t_visible] in *.
  replace (Z.to_nat (Z.of_nat r0 + line)) with (r0 + Z.to_nat line)%nat in * by lia.
  replace (Z.to_nat (Z.of_nat c0 + 0)) with c0 in * by lia.
  repeat split; (done || lia).
Qed.

(** [update_line] on the screen. *)
Lemma update_line_screen r0 c0 w line content :
  tracks r0 c0 (render (stdout w)) (tool w) ->
  0 <= line -> 0 <= max_lines (tool w) ->
  char_in_str CR content || char_in_str LF content = false ->
  exists w',
    update_line line content w = (Ok tt, w') /\
    tool w' = mkUITool (max_lines (tool w)) (max_lines (tool w)) 0 (line_pos (tool w)) /\
    tracks r0 c0 (render (stdout w')) (tool w') /\
    default [] (t_screen (render (stdout w')) !! (r0 + Z.to_nat line)%nat) =
      put_cells c0 (list_ascii_of_string content)
                (default [] (t_screen (render (stdout w)) !! (r0 + Z.to_nat line)%nat)) /\
    (forall r, r <> (r0 + Z.to_nat line)%nat ->
               t_screen (render (stdout w')) !! r = t_screen (render (stdout w)) !! r).
Proof.
  intros Htr Hline Hn Hc.
  rewrite update_line_eq by done. eexists. split; [done |].
  cbn [tool stdout]. rewrite render_app.
  destruct (term_run_update_line r0 c0 (render (stdout w)) (tool w)
              (max_lines (tool w)) line content Htr Hline Hn
              (clean_is_printable content Hc)) as (Hr & Hcol & _ & Hrow & Hother).
  repeat split; try done.
  - rewrite Hr. simpl. lia.
  - rewrite Hcol. simpl. lia.
Qed.

(** A printing [update_char] with any text free of line breaks, on the
    screen: the text goes into the row of its line from the line's column
    on; the table advances by one. *)
Lemma update_char_text_screen r0 c0 w i s p :
  tracks r0 c0 (render (stdout w)) (tool w) ->
  0 <= i < max_lines (tool w) ->
  line_pos (tool w) !! Z.to_nat i = Some p -> 0 <= p ->
  forallb printable (list_ascii_of_string s) = true ->
  exists w',
    update_char i s w = (Ok tt, w') /\
    tool w' = mkUITool (max_lines (tool w)) (max_lines (tool w)) 0
                       (<[Z.to_nat i := p + 1]> (line_pos (tool w))) /\
    Z.of_nat (t_row (render (stdout w'))) = Z.of_nat r0 + max_lines (tool w) /\
    Z.of_nat (t_col (render (stdout w'))) =
      Z.max 0 (Z.of_nat c0 + Z.of_nat (String.length s) - 1) /\
    default [] (t_screen (render (stdout w')) !! (r0 + Z.to_nat i)%nat) =
      put_cells (c0 + Z.to_nat p) (list_ascii_of_string s)
                (default [] (t_screen (render (stdout w)) !! (r0 + Z.to_nat i)%nat)) /\
    (forall r, r <> (r0 + Z.to_nat i)%nat ->
               t_screen (render (stdout w')) !! r = t_screen (render (stdout w)) !! r).
Proof.
  intros Htr Hi Hp Hp0 Hs.
  rewrite (update_char_print i s p) by (done || by apply printable_string_not_newline).
  eexists. split; [done |]. split; [done |].
  cbn [tool stdout]. rewrite render_app.
  rewrite (app_assoc (vmove _)), term_run_app.
  rewrite (term_run_move r0 c0) by (done || lia).
  rewrite term_run_app.
  change (term_run ?t [Text s]) with (fold_left term_char (list_ascii_of_string s) t).
  set (t1 := mkTerm _ _ _ _).
  destruct (term_text_printable (list_ascii_of_string s) t1 Hs)
    as (Hr & Hc & Hv & Hrow & Hother).
  set (t2 := fold_left term_char _ t1) in *.
  rewrite term_run_app, term_run_vmove by (rewrite Hr; simpl; lia).
  assert (Hcol2 : Z.of_nat (t_col t2) = Z.of_nat c0 + p + Z.of_nat (String.length s)).
  { rewrite Hc, length_list_ascii. simpl. lia. }
  subst t1. cbn [t_row t_col t_screen t_visible] in *.
  replace (Z.to_nat (Z.of_nat r0 + i)) with (r0 + Z.to_nat i)%nat in * by lia.
  replace (Z.to_nat (Z.of_nat c0 + p)) with (c0 + Z.to_nat p)%nat in * by lia.
  assert (Hfinal : forall t3,
             t_row (term_run t3 (hmove (0 - (p + 1)))) = t_row t3 /\
             t_screen (term_run t3 (hmove (0 - (p + 1)))) = t_screen t3 /\
             Z.of_nat (t_col (term_run t3 (hmove (0 - (p + 1))))) =
               Z.max 0 (Z.of_nat (t_col t3) - (p + 1))).
  { intros t3. unfold hmove.
    destruct (Z.ltb_spec 0 (0 - (p + 1))); [lia |].
    destruct (Z.ltb_spec (0 - (p + 1)) 0); [| lia].
    cbv [term_run fold_left term_step count]. cbn [t_row t_col t_screen]. repeat split. lia. }
  destruct (Hfinal (mkTerm (Z.to_nat (Z.of_nat (t_row t2) + (max_lines (tool w) - i)))
                           (t_col t2) (t_screen t2) (t_visible t2)))
    as (Hr3 & Hs3 & Hc3).
  rewrite Hr3, Hs3, Hc3. cbn [t_row t_col t_screen].
  rewrite Hr, Hcol2. repeat split; try done; lia.
Qed.

(** The constructor leaves the canvas in agreement with the terminal. *)
Lemma synced_init u0 pre (e : Env) n :
  0 <= n ->
  synced (t_row (render pre)) (t_col (render pre))
         (snd (__init__ n (mkWorld u0 pre e))).
Proof.
  intros Hn. rewrite init_eq.
  unfold synced, table_ok, at_footer, tracks.
  cbn [snd tool stdout max_lines cur_line cur_col line_pos].
  rewrite render_app, term_run_vmove by lia. cbn [t_row t_col].
  rewrite length_replicate.
  repeat split; try done; try lia.
  apply Forall_forall. intros x Hx%elem_of_replicate. lia.
Qed.

(** One character through [update_char], on a canvas in agreement with the
    terminal: the agreement stays, the column of the line follows
    [next_col], and only a printable character touches the screen. *)
Lemma update_char_synced r0 c0 w i c p :
  synced r0 c0 w ->
  0 <= i < max_lines (tool w) ->
  line_pos (tool w) !! Z.to_nat i = Some p ->
  exists w',
    update_char i (str1 c) w = (Ok tt, w') /\
    synced r0 c0 w' /\
    max_lines (tool w') = max_lines (tool w) /\
    env w' = env w /\
    line_pos (tool w') = <[Z.to_nat i := next_col (str1 c) p]> (line_pos (tool w)) /\
    default [] (t_screen (render (stdout w')) !! (r0 + Z.to_nat i)%nat) =
      (if printable c
       then put_cell (c0 + Z.to_nat p) c
       else fun row => row)
        (default [] (t_screen (render (stdout w)) !! (r0 + Z.to_nat i)%nat)) /\
    (forall r, r <> (r0 + Z.to_nat i)%nat ->
               t_screen (render (stdout w')) !! r = t_screen (render (stdout w)) !! r).
Proof.
  intros (Hok & Hpos & [Hfl Hfc] & Hn & Htr) Hi Hp.
  assert (Hp0 : 0 <= p) by (by eapply (Forall_lookup_1 _ _ _ _ Hpos Hp)).
  assert (Hlen : (Z.to_nat i < length (line_pos (tool w)))%nat)
    by (by apply lookup_lt_Some in Hp).
  unfold next_col. destruct (printable c) eqn:Hc.
  - rewrite printable_not_newline by done.
    destruct (update_char_text_screen r0 c0 w i (str1 c) p Htr Hi Hp Hp0)
      as (w' & Hrun & Htool & Hrow & Hcol & Hcells & Hother).
    { simpl. by rewrite Hc. }
    exists w'. split; [done |].
    assert (Henv : env w' = env w).
    { rewrite (update_char_print i (str1 c) p) in Hrun
        by (done || by apply printable_not_newline).
      by injection Hrun as <-. }
    unfold synced, table_ok, at_footer, tracks in *.
    rewrite !Htool. cbn [tool max_lines cur_line cur_col line_pos].
    simpl in Hcol.
    repeat split; try done; try lia;
      try (by rewrite length_insert); try (apply Forall_insert; [done | lia]).
  - rewrite not_printable_is_newline by done.
    rewrite (update_char_newline i (str1 c) w Hok Hi (not_printable_is_newline c Hc)).
    eexists. split; [done |].
    assert (Hrender : render (stdout w ++ vmove (max_lines (tool w) - cur_line (tool w))
                                       ++ hmove (0 - cur_col (tool w))) =
              mkTerm (Z.to_nat (Z.of_nat r0 + max_lines (tool w)))
                     (Z.to_nat (Z.of_nat c0 + 0))
                     (t_screen (render (stdout w))) (t_visible (render (stdout w)))).
    { rewrite render_app. by rewrite (term_run_move r0 c0) by (done || lia). }
    unfold synced, table_ok, at_footer, tracks in *.
    cbn [tool stdout env max_lines cur_line cur_col line_pos]. rewrite Hrender.
    cbn [t_row t_col t_screen].
    repeat split; try done; try lia;
      try (by rewrite length_insert); try (by apply Forall_insert).
Qed.

(** A run of printable characters on line [i] goes into the row of the
    line from the line's column on, over whatever the row showed. *)
Lemma update_chars_overwrite r0 c0 i cs : forall w row p,
  synced r0 c0 w ->
  0 <= i < max_lines (tool w) ->
  forallb printable cs = true ->
  default [] (t_screen (render (stdout w)) !! (r0 + Z.to_nat i)%nat) = row ->
  line_pos (tool w) !! Z.to_nat i = Some p ->
  exists w',
    update_chars (map (fun c => (i, str1 c)) cs) w = (Ok tt, w') /\
    synced r0 c0 w' /\
    max_lines (tool w') = max_lines (tool w) /\
    default [] (t_screen (render (stdout w')) !! (r0 + Z.to_nat i)%nat) =
      put_cells (c0 + Z.to_nat p) cs row /\
    line_pos (tool w') !! Z.to_nat i = Some (p + Z.of_nat (length cs)).
Proof.
  induction cs as [|c cs IH]; intros w row p Hsync Hi Hcs Hrow Hp.
  - exists w. simpl. rewrite Z.add_0_r. by destruct w.
  - simpl in Hcs. apply andb_true_iff in Hcs as [Hc Hcs].
    destruct (update_char_synced r0 c0 w i c p Hsync Hi Hp)
      as (w1 & Hrun1 & Hsync1 & Hn1 & _ & Hpos1 & Hrow1 & _).
    rewrite Hc, Hrow in Hrow1.
    assert (Hp0 : 0 <= p).
    { destruct Hsync as (_ & Hpos & _). by eapply (Forall_lookup_1 _ _ _ _ Hpos Hp). }
    destruct (IH w1 (put_cell (c0 + Z.to_nat p) c row) (p + 1))
      as (w' & Hrun & Hsync' & Hn' & Hrow' & Hp'); try done.
    + by rewrite Hn1.
    + rewrite Hpos1. unfold next_col. rewrite printable_not_newline by done.
      apply list_lookup_insert_eq. by apply lookup_lt_Some in Hp.
    + exists w'. cbn [map update_chars]. unfold bind. rewrite Hrun1.
      split; [done |]. split; [done |]. split; [congruence |].
      split.
      * rewrite Hrow'. cbn [put_cells].
        by replace (c0 + Z.to_nat (p + 1))%nat with (S (c0 + Z.to_nat p)) by lia.
      * rewrite Hp'. f_equal. cbn [length]. lia.
Qed.
End SyncFacts.

(** X1: [update_line] writes its content over the row of its line from column 0
    on, and erases nothing: what the row showed beyond the length of the
    content stays.  No other row changes, and [line_pos] is not touched, so
    later [update_char] calls on the line resume at the old column. *)
Theorem update_line_overwrites {Env : Type} (w : World Env) r0 line content :
  tracks r0 0 (render (stdout w)) (tool w) ->
  0 <= line -> 0 <= max_lines (tool w) ->
  char_in_str CR content || char_in_str LF content = false ->
  exists w',
    update_line line content w = (Ok tt, w') /\
    line_pos (tool w') = line_pos (tool w) /\
    list_ascii_of_string (row_text (render (stdout w')) (r0 + Z.to_nat line)) =
      list_ascii_of_string content
      ++ drop (String.length content)
              (list_ascii_of_string (row_text (render (stdout w)) (r0 + Z.to_nat line))) /\
    (forall r, r <> (r0 + Z.to_nat line)%nat ->
               row_text (render (stdout w')) r = row_text (render (stdout w)) r).
Proof.
  intros Htr Hline Hn Hc.
  destruct (update_line_screen r0 0 w line content Htr Hline Hn Hc)
    as (w' & Hrun & Htool & _ & Hrow & Hother).
  exists w'. split; [done |]. split; [by rewrite Htool |]. split.
  - unfold row_text. rewrite !list_ascii_of_string_of_list_ascii, Hrow.
    rewrite put_cells_within by lia. by rewrite length_list_ascii.
  - intros r Hr. unfold row_text. by rewrite Hother.
Qed.

Lemma update_line_overwrites_witness :
  exists w',
    update_line 0 "hi" (snd (update_line 0 "hello" (fresh 2))) = (Ok tt, w') /\
    line_pos (tool w') = line_pos (tool (snd (update_line 0 "hello" (fresh 2)))) /\
    list_ascii_of_string (row_text (render (stdout w')) (0 + Z.to_nat 0)) =
      list_ascii_of_string "hi"
      ++ drop (String.length "hi")
              (list_ascii_of_string
                 (row_text (render (stdout (snd (update_line 0 "hello" (fresh 2)))))
                           (0 + Z.to_nat 0))) /\
    (forall r, r <> (0 + Z.to_nat 0)%nat ->
               row_text (render (stdout w')) r =
               row_text (render (stdout (snd (update_line 0 "hello" (fresh 2))))) r).
Proof.
  refine (update_line_overwrites (snd (update_line 0 "hello" (fresh 2))) 0 0 "hi" _ _ _ _).
  - vm_compute. split; reflexivity.
  - discriminate.
  - vm_compute. discriminate.
  - reflexivity.
Defined.

(** X2: the canvas stays in agreement with the terminal: the constructor, run
    with [max_lines >= 0], leaves one table entry per line, no negative
    column, and the terminal's cursor on the footer line where the canvas
    believes it; [update_char] with any single character on a line of the
    canvas, and [update_line] with a content free of line breaks on a line
    [>= 0], return normally and keep all of this. *)
Theorem canvas_stays_synced {Env : Type} :
  (forall u0 pre (e : Env) n,
      0 <= n ->
      synced (t_row (render pre)) (t_col (render pre))
             (snd (__init__ n (mkWorld u0 pre e)))) /\
  (forall (w : World Env) r0 c0 i c,
      synced r0 c0 w -> 0 <= i < max_lines (tool w) ->
      exists w', update_char i (str1 c) w = (Ok tt, w') /\ synced r0 c0 w') /\
  (forall (w : World Env) r0 c0 line content,
      synced r0 c0 w -> 0 <= line ->
      char_in_str CR content || char_in_str LF content = false ->
      exists w', update_line line content w = (Ok tt, w') /\ synced r0 c0 w').
Proof.
  split; [| split].
  - intros u0 pre e n Hn. by apply synced_init.
  - intros w r0 c0 i c Hsync Hi.
    destruct Hsync as (Hok & Hrest).
    destruct (table_lookup (tool w) i Hok Hi) as [p Hp].
    destruct (update_char_synced r0 c0 w i c p (conj Hok Hrest) Hi Hp)
      as (w' & Hrun & Hsync' & _).
    by exists w'.
  - intros w r0 c0 line content (Hok & Hpos & Hft & Hn & Htr) Hline Hc.
    destruct (update_line_screen r0 c0 w line content Htr Hline Hn Hc)
      as (w' & Hrun & Htool & Htr' & _).
    exists w'. split; [done |].
    unfold synced, table_ok, at_footer in *. rewrite Htool in *.
    cbn [max_lines cur_line cur_col line_pos] in *. done.
Qed.

Lemma canvas_stays_synced_witness :
  synced (t_row (render [HideCursor])) (t_col (render [HideCursor]))
         (snd (__init__ 2 (mkWorld blank_tool [HideCursor] tt))) /\
  (exists w', update_char 1 (str1 "a") (fresh 2) = (Ok tt, w') /\ synced 0 0 w') /\
  (exists w', update_line 2 "status" (fresh 2) = (Ok tt, w') /\ synced 0 0 w').
Proof.
  assert (Hfresh : synced 0 0 (fresh 2)).
  { exact (proj1 (@canvas_stays_synced unit) blank_tool [] tt 2 ltac:(discriminate)). }
  split; [| split].
  - exact (proj1 (@canvas_stays_synced unit) blank_tool [HideCursor] tt 2
                 ltac:(discriminate)).
  - refine (proj1 (proj2 (@canvas_stays_synced unit)) (fresh 2) 0%nat 0%nat 1 "a"%char
                  Hfresh _).
    vm_compute. split; [discriminate | reflexivity].
  - refine (proj2 (proj2 (@canvas_stays_synced unit)) (fresh 2) 0%nat 0%nat 2 "status"
                  Hfresh _ _).
    + discriminate.
    + reflexivity.
Defined.

(** X3: after a carriage return on line [i], a run of printable characters is
    written over the row from column 0 on, and nothing is erased: the row
    then shows the new characters followed by what it showed beyond their
    length; [line_pos[i]] is the number of new characters. *)
Theorem carriage_return_overwrites {Env : Type} (w : World Env) r0 i cs :
  synced r0 0 w ->
  0 <= i < max_lines (tool w) ->
  forallb printable cs = true ->
  exists w',
    update_chars ((i, cr) :: map (fun c => (i, str1 c)) cs) w = (Ok tt, w') /\
    list_ascii_of_string (row_text (render (stdout w')) (r0 + Z.to_nat i)) =
      cs ++ drop (length cs)
                 (list_ascii_of_string (row_text (render (stdout w)) (r0 + Z.to_nat i))) /\
    line_pos (tool w') !! Z.to_nat i = Some (Z.of_nat (length cs)).
Proof.
  intros Hsync Hi Hcs.
  destruct (table_lookup (tool w) i (proj1 Hsync) Hi) as [p Hp].
  destruct (update_char_synced r0 0 w i CR p Hsync Hi Hp)
    as (w1 & Hrun1 & Hsync1 & Hn1 & _ & Hpos1 & Hrow1 & _).
  destruct (update_chars_overwrite r0 0 i cs w1
              (default [] (t_screen (render (stdout w)) !! (r0 + Z.to_nat i)%nat)) 0)
    as (w' & Hrun & _ & _ & Hrow & Hcol); try done.
  - by rewrite Hn1.
  - rewrite Hpos1. apply list_lookup_insert_eq. by apply lookup_lt_Some in Hp.
  - exists w'. cbn [update_chars]. unfold bind, cr. rewrite Hrun1.
    split; [done |]. split; [| done].
    unfold row_text. rewrite !list_ascii_of_string_of_list_ascii, Hrow.
    by rewrite put_cells_within by (simpl; lia).
Qed.

Lemma carriage_return_overwrites_witness :
  exists w',
    update_chars ((0, cr) :: map (fun c => (0, str1 c)) ["9"; "%"]%char)
                 (snd (update_chars [(0, "1"); (0, "0"); (0, "0"); (0, "%")] (fresh 1)))
      = (Ok tt, w') /\
    list_ascii_of_string (row_text (render (stdout w')) (0 + Z.to_nat 0)) =
      ["9"; "%"]%char
      ++ drop (length ["9"; "%"]%char)
              (list_ascii_of_string
                 (row_text
                    (render (stdout (snd (update_chars
                                            [(0, "1"); (0, "0"); (0, "0"); (0, "%")]
                                            (fresh 1)))))
                    (0 + Z.to_nat 0))) /\
    line_pos (tool w') !! Z.to_nat 0 = Some (Z.of_nat (length ["9"; "%"]%char)).
Proof.
  refine (carriage_return_overwrites
            (snd (update_chars [(0, "1"); (0, "0"); (0, "0"); (0, "%")] (fresh 1)))
            0 0 ["9"; "%"]%char _ _ _).
  - vm_compute. repeat split; try reflexivity; try discriminate.
    repeat constructor; discriminate.
  - vm_compute. split; [discriminate | reflexivity].
  - reflexivity.
Defined.

(** X4: [update_char] counts one column for whatever text it is given: with a
    text of [k >= 1] characters free of line breaks it writes all [k] cells
    but advances [line_pos] by one, and afterwards believes the cursor in
    column 0 while the terminal's cursor is [k - 1] columns to the right of
    it.  Belief and terminal agree only for [k = 1]. *)
Theorem long_text_drifts {Env : Type} (w : World Env) r0 c0 i s :
  synced r0 c0 w ->
  0 <= i < max_lines (tool w) ->
  forallb printable (list_ascii_of_string s) = true ->
  (1 <= String.length s)%nat ->
  exists w' p,
    line_pos (tool w) !! Z.to_nat i = Some p /\
    update_char i s w = (Ok tt, w') /\
    line_pos (tool w') !! Z.to_nat i = Some (p + 1) /\
    cur_col (tool w') = 0 /\
    t_col (render (stdout w')) = (c0 + (String.length s - 1))%nat /\
    default [] (t_screen (render (stdout w')) !! (r0 + Z.to_nat i)%nat) =
      put_cells (c0 + Z.to_nat p) (list_ascii_of_string s)
                (default [] (t_screen (render (stdout w)) !! (r0 + Z.to_nat i)%nat)).
Proof.
  intros (Hok & Hpos & Hft & Hn & Htr) Hi Hs Hk.
  destruct (table_lookup (tool w) i Hok Hi) as [p Hp].
  assert (Hp0 : 0 <= p) by (by eapply (Forall_lookup_1 _ _ _ _ Hpos Hp)).
  destruct (update_char_text_screen r0 c0 w i s p Htr Hi Hp Hp0 Hs)
    as (w' & Hrun & Htool & Hrow & Hcol & Hcells & _).
  exists w', p. rewrite Htool. cbn [line_pos cur_col].
  repeat split; try done.
  - apply list_lookup_insert_eq. by apply lookup_lt_Some in Hp.
  - lia.
Qed.

Lemma long_text_drifts_witness :
  exists w' p,
    line_pos (tool (fresh 2)) !! Z.to_nat 1 = Some p /\
    update_char 1 "abc" (fresh 2) = (Ok tt, w') /\
    line_pos (tool w') !! Z.to_nat 1 = Some (p + 1) /\
    cur_col (tool w') = 0 /\
    t_col (render (stdout w')) = (0 + (String.length "abc" - 1))%nat /\
    default [] (t_screen (render (stdout w')) !! (0 + Z.to_nat 1)%nat) =
      put_cells (0 + Z.to_nat p) (list_ascii_of_string "abc")
                (default [] (t_screen (render (stdout (fresh 2))) !! (0 + Z.to_nat 1)%nat)).
Proof.
  refine (long_text_drifts (fresh 2) 0 0 1 "abc" _ _ _ _).
  - exact (synced_init blank_tool [] tt 2 ltac:(discriminate)).
  - vm_compute. split; [discriminate | reflexivity].
  - reflexivity.
  - vm_compute. lia.
Defined.

(** ** What is never written, and the cursor's visibility *)

Section OutputFacts.
Context {Env : Type}.
Implicit Types (w : World Env).

Lemma vmove_count_ok d : forallb count_ok (vmove d) = true.
Proof.
  unfold vmove. destruct (Z.ltb_spec 0 d) as [Hd | Hd]; simpl.
  - rewrite andb_true_r. by apply Z.ltb_lt.
  - destruct (Z.ltb_spec d 0); simpl; [| done].
    rewrite andb_true_r. apply Z.ltb_lt. lia.
Qed.

Lemma hmove_count_ok d : forallb count_ok (hmove d) = true.
Proof.
  unfold hmove. destruct (Z.ltb_spec 0 d) as [Hd | Hd]; simpl.
  - rewrite andb_true_r. by apply Z.ltb_lt.
  - destruct (Z.ltb_spec d 0); simpl; [| done].
    rewrite andb_true_r. apply Z.ltb_lt. lia.
Qed.

Lemma update_char_counts line char w :
  exists evs,
    stdout (snd (update_char line char w)) = stdout w ++ evs /\
    forallb count_ok evs = true.
Proof.
  unfold update_char. step_m.
  destruct ((0 <=? line) && (line <? max_lines (tool w))); simpl;
    [| exists []; by rewrite app_nil_r].
  destruct (str_in_list char [nl; cr]).
  - unfold line_pos_setitem. step_m.
    destruct (py_index (line_pos (tool w)) line); simpl;
      [| exists []; by rewrite app_nil_r].
    rewrite reset_pos_eq. simpl. eexists. split; [done |].
    by rewrite forallb_app, vmove_count_ok, hmove_count_ok.
  - unfold line_pos_getitem. step_m.
    destruct (py_index (line_pos (tool w)) line) as [k|] eqn:Hk; simpl;
      [| exists []; by rewrite app_nil_r].
    destruct (line_pos (tool w) !! k); simpl; [| exists []; by rewrite app_nil_r].
    rewrite move_cursor_eq. simpl. unfold print_char. step_m.
    unfold line_pos_setitem. step_m. rewrite Hk. simpl.
    rewrite reset_pos_eq. simpl. rewrite <- !app_assoc.
    eexists. split; [done |].
    repeat (progress (rewrite ?forallb_app; cbn [forallb count_ok app])).
    by rewrite !vmove_count_ok, !hmove_count_ok.
Qed.

Lemma update_line_counts line content w :
  exists evs,
    stdout (snd (update_line line content w)) = stdout w ++ evs /\
    forallb count_ok evs = true.
Proof.
  destruct (char_in_str CR content || char_in_str LF content) eqn:Hc.
  - rewrite update_line_rejects by done. exists []. by rewrite app_nil_r.
  - rewrite update_line_eq by done. simpl. eexists. split; [done |].
    repeat (progress (rewrite ?forallb_app; cbn [forallb count_ok app])).
    by rewrite !vmove_count_ok, !hmove_count_ok.
Qed.

Lemma term_text_visible cs : forall t,
  t_visible (fold_left term_char cs t) = t_visible t.
Proof.
  induction cs as [|x cs IH]; intros t; [done |].
  cbn [fold_left]. rewrite IH. unfold term_char.
  by destruct (Ascii.eqb x LF), (Ascii.eqb x CR).
Qed.

(** Only the two visibility sequences change whether the cursor shows. *)
Lemma term_step_visible t e :
  e <> HideCursor -> e <> ShowCursor ->
  t_visible (term_step t e) = t_visible t.
Proof.
  intros Hh Hs. destruct e; try done. simpl. apply term_text_visible.
Qed.

Lemma term_run_moves_visible t evs :
  Forall (fun e => e <> HideCursor /\ e <> ShowCursor) evs ->
  t_visible (term_run t evs) = t_visible t.
Proof.
  revert t. induction evs as [|e evs IH]; intros t Hall; [done |].
  inversion Hall as [|? ? [Hh Hs] Hrest]; subst.
  cbn [term_run fold_left]. fold (term_run (term_step t e) evs).
  rewrite IH by done. by apply term_step_visible.
Qed.

Lemma vmove_no_visibility d :
  Forall (fun e => e <> HideCursor /\ e <> ShowCursor) (vmove d).
Proof. unfold vmove. destruct (0 <? d), (d <? 0); repeat constructor; done. Qed.

Lemma hmove_no_visibility d :
  Forall (fun e => e <> HideCursor /\ e <> ShowCursor) (hmove d).
Proof. unfold hmove. destruct (0 <? d), (d <? 0); repeat constructor; done. Qed.
End OutputFacts.

(** X5: no cursor movement written by the canvas has a count of zero or less
    (which a terminal would take for 1, or not understand): whatever the
    state and the arguments, and however the call ends, every movement
    that [UITool(n)], [update_char] and [update_line] write carries a count
    of at least 1. *)
Theorem movements_have_positive_counts {Env : Type} :
  (forall n (w : World Env),
      exists evs, stdout (snd (__init__ n w)) = stdout w ++ evs /\
                  forallb count_ok evs = true) /\
  (forall line char (w : World Env),
      exists evs, stdout (snd (update_char line char w)) = stdout w ++ evs /\
                  forallb count_ok evs = true) /\
  (forall line content (w : World Env),
      exists evs, stdout (snd (update_line line content w)) = stdout w ++ evs /\
                  forallb count_ok evs = true).
Proof.
  split; [| split].
  - intros n w. rewrite init_eq. eexists. split; [done |]. apply vmove_count_ok.
  - apply update_char_counts.
  - apply update_line_counts.
Qed.

(** X6: the cursor is hidden while the body of a session runs and shows again
    once the scope is left, whatever the body wrote and whether it returned
    or raised; after a body that returned, the terminal's cursor is at the
    start of the row below the one the body left it in. *)
Theorem cursor_hidden_then_shown {Env : Type} n desc (body : M Env unit)
    (w : World Env) rb wb :
  char_in_str CR desc || char_in_str LF desc = false ->
  body (entered n desc w) = (rb, wb) ->
  rb <> Hang ->
  t_visible (render (stdout (entered n desc w))) = false /\
  t_visible (render (stdout (snd (ui_tool n desc body w)))) = true /\
  (rb = Ok tt ->
   t_row (render (stdout (snd (ui_tool n desc body w)))) = S (t_row (render (stdout wb))) /\
   t_col (render (stdout (snd (ui_tool n desc body w)))) = 0%nat).
Proof.
  intros Hd Hb Hrb. split; [| split].
  - rewrite entered_eq by done. cbn [stdout].
    rewrite render_app, term_run_app. rewrite term_run_moves_visible; [done |].
    apply Forall_app. split; [apply vmove_no_visibility |].
    apply Forall_cons. split; [done |]. apply hmove_no_visibility.
  - rewrite (ui_tool_eq n desc body w rb wb Hd Hb).
    destruct rb as [[]|e|]; [| |done]; cbn [snd wrote stdout];
      rewrite app_assoc, render_app; done.
  - intros ->. rewrite (ui_tool_eq n desc body w (Ok tt) wb Hd Hb).
    cbn [snd wrote stdout reported app]. by rewrite render_app.
Qed.

Lemma cursor_hidden_then_shown_witness :
  t_visible (render (stdout (entered 1 "TinyUI" (world0 tt)))) = false /\
  t_visible (render (stdout (snd (ui_tool 1 "TinyUI" (update_char 0 "a") (world0 tt)))))
    = true /\
  (Ok tt = Ok tt ->
   t_row (render (stdout (snd (ui_tool 1 "TinyUI" (update_char 0 "a") (world0 tt))))) =
     S (t_row (render (stdout (snd (update_char 0 "a" (entered 1 "TinyUI" (world0 tt))))))) /\
   t_col (render (stdout (snd (ui_tool 1 "TinyUI" (update_char 0 "a") (world0 tt)))))
     = 0%nat).
Proof.
  refine (cursor_hidden_then_shown 1 "TinyUI" (update_char 0 "a") (world0 tt)
            (Ok tt)
            (snd (update_char 0 "a" (entered 1 "TinyUI" (world0 tt)))) _ _ _).
  - reflexivity.
  - vm_compute; reflexivity.
  - discriminate.
Defined.

(** ** The loop never trips the canvas *)

Section LoopSafety.
Context {P : Type} `{Popen P}.
Implicit Types (w : World (list P)).

Lemma poll_all_length (ps : list P) : length (snd (poll_all ps)) = length ps.
Proof.
  induction ps as [|p ps IH]; [done |].
  simpl. destruct (poll p) as [[rc|] p'].
  - destruct (poll_all ps) as [b rest]. simpl in *. by rewrite IH.
  - done.
Qed.

Lemma read_and_show_safe i w :
  lines_match w ->
  exists w', read_and_show i w = (Ok tt, w') /\ lines_match w' /\
             length (env w') = length (env w).
Proof.
  intros [Hok Hn]. unfold read_and_show.
  destruct (env w !! i) as [p|] eqn:Hp; [| by exists w].
  destruct (has_stdout p); [| by exists w].
  destruct (read1 p) as [char p'].
  set (w1 := mkWorld (tool w) (stdout w) (<[i := p']> (env w))).
  assert (Hlen1 : length (env w1) = length (env w)) by (simpl; by rewrite length_insert).
  destruct (String.eqb char "").
  - exists w1. repeat split; try done. simpl. rewrite length_insert. done.
  - assert (Hi : 0 <= Z.of_nat i < max_lines (tool w1)).
    { simpl. apply lookup_lt_Some in Hp. lia. }
    destruct (table_lookup (tool w1) (Z.of_nat i) Hok Hi) as [q Hq].
    destruct (update_char_ok (Z.of_nat i) char q w1 Hi Hq) as [evs Hrun].
    eexists. split; [exact Hrun |]. unfold lines_match, table_ok in *. simpl in *.
    rewrite !length_insert. done.
Qed.

Lemma for_indices_safe idx : forall w,
  lines_match w ->
  exists w', for_indices idx w = (Ok tt, w') /\ lines_match w' /\
             length (env w') = length (env w).
Proof.
  induction idx as [|i idx IH]; intros w Hw.
  - by exists w.
  - destruct (read_and_show_safe i w Hw) as (w1 & Hrun1 & Hw1 & Hlen1).
    destruct (IH w1 Hw1) as (w' & Hrun & Hw' & Hlen).
    exists w'. cbn [for_indices]. unfold bind. rewrite Hrun1.
    split; [done |]. split; [done |]. by rewrite Hlen.
Qed.

Lemma ui_loop_safe fuel : forall w,
  lines_match w ->
  exists w', (ui_loop fuel w = (Ok tt, w') \/ ui_loop fuel w = (Hang, w')) /\
             lines_match w'.
Proof.
  induction fuel as [|fuel IH]; intros w Hw.
  - exists w. split; [by right | done].
  - cbn [ui_loop]. unfold bind, all_exited.
    pose proof (poll_all_length (env w)) as Hlen.
    destruct (poll_all (env w)) as [b ps]. simpl in Hlen.
    set (w0 := mkWorld (tool w) (stdout w) ps).
    assert (Hw0 : lines_match w0).
    { destruct Hw as [Hok Hn]. split; [done |]. simpl. by rewrite Hlen. }
    destruct b.
    + exists w0. split; [by left | done].
    + unfold read_pass.
      destruct (for_indices_safe (seq 0 (length (env w0))) w0 Hw0)
        as (w1 & Hrun1 & Hw1 & _).
      rewrite Hrun1. by apply IH.
Qed.
End LoopSafety.

(** X7: [_ui_thread] never raises, whatever the process handles do and however
    many there are: every line index it passes to [update_char] is a line of
    the canvas, so the assertion there cannot fail.  Within any bound it
    either returns normally, the teardown being the last thing written, or
    is still polling. *)
Theorem ui_thread_never_raises (P : Type) (HP : Popen P) fuel (w : World (list P)) :
  (exists wb,
      _ui_thread fuel w = (Ok tt, wrote wb [ShowCursor; Text nl]) /\
      ui_loop fuel (entered (Z.of_nat (length (env w))) "TinyUI" w) = (Ok tt, wb)) \/
  (exists wb, _ui_thread fuel w = (Hang, wb)).
Proof.
  set (n := Z.of_nat (length (env w))).
  assert (Hent : lines_match (entered n "TinyUI" w)).
  { rewrite entered_eq by done. split.
    - unfold table_ok. simpl. by rewrite length_replicate.
    - done. }
  destruct (ui_loop_safe fuel _ Hent) as (wb & [Hrun | Hrun] & _).
  - left. exists wb. split; [| done]. unfold _ui_thread. fold n.
    by rewrite (ui_tool_eq n "TinyUI" _ w _ wb eq_refl Hrun).
  - right. exists wb. unfold _ui_thread. fold n.
    by rewrite (ui_tool_eq n "TinyUI" _ w _ wb eq_refl Hrun).
Qed.

(** X8: with no process at all, [_ui_thread] returns at the first evaluation of
    the loop condition: a canvas without lines is constructed, the banner is
    written on the line the cursor is on, and the teardown follows. *)
Theorem ui_thread_without_processes (P : Type) (HP : Popen P) fuel u out :
  _ui_thread (S fuel) (mkWorld u out (@nil P)) =
  (Ok tt,
   mkWorld (mkUITool 0 0 0 [])
           (out ++ [HideCursor; Text (banner "TinyUI"); CUB 18; ShowCursor; Text nl])
           []).
Proof.
  unfold _ui_thread. cbn [env length Z.of_nat].
  erewrite ui_tool_eq; [| done |].
  2: { apply ui_loop_all_exited. by rewrite entered_eq. }
  rewrite entered_eq by done. unfold wrote. cbn [tool stdout env].
  f_equal. f_equal; try (vm_compute; reflexivity).
  rewrite <- app_assoc. f_equal.
Qed.

(** ** The loop over scripted processes *)

Section EmitterFacts.
Implicit Types (w : World (list Emitter)) (p : Emitter).

Lemma step_em_empty p : remaining p = "" -> step_em p = p.
Proof. destruct p as [r]. simpl. by intros ->. Qed.

Lemma poll_all_emitters (ps : list Emitter) :
  poll_all ps = (Nat.eqb (longest ps) 0, ps).
Proof.
  induction ps as [|[r] ps IH]; [done |].
  cbn [poll_all poll Emitter_Popen remaining longest fold_right].
  destruct r as [|c r]; simpl.
  - fold (longest ps). by rewrite IH.
  - f_equal. symmetry. apply Nat.eqb_neq. lia.
Qed.

Lemma longest_step (ps : list Emitter) :
  longest (map step_em ps) = Nat.pred (longest ps).
Proof.
  induction ps as [|[r] ps IH]; [done |].
  cbn [map longest fold_right]. fold (longest (map step_em ps)). fold (longest ps).
  rewrite IH. unfold step_em. simpl. destruct r; simpl; lia.
Qed.

(** The body of the [for] loop on process [i]: one character, if any is
    left, moves from the process to the end of the row of line [i]. *)
Lemma read_and_show_emitter r0 i p w tgt :
  synced r0 0 w ->
  max_lines (tool w) = Z.of_nat (length (env w)) ->
  lines_show r0 w tgt ->
  env w !! i = Some p ->
  exists w',
    read_and_show i w = (Ok tt, w') /\
    synced r0 0 w' /\
    max_lines (tool w') = max_lines (tool w) /\
    env w' = <[i := step_em p]> (env w) /\
    lines_show r0 w' tgt.
Proof.
  intros Hsync Hn [Hlen Hshow] Hp.
  destruct (Hshow i p Hp) as (row & Hrow & Hcol & Htgt & Hpr).
  unfold read_and_show. rewrite Hp. cbn [has_stdout read1 Emitter_Popen].
  destruct (remaining p) as [|c rest] eqn:Hrem.
  - cbn [String.eqb]. eexists. split; [done |].
    rewrite list_insert_id by done. rewrite step_em_empty by done.
    rewrite list_insert_id by done.
    destruct w as [u out ps]. simpl in *. repeat split; try done; apply Hsync.
  - cbn [str1 String.eqb]. fold (str1 c).
    set (w1 := mkWorld (tool w) (stdout w) (<[i := mkEmitter rest]> (env w))).
    assert (Hi : 0 <= Z.of_nat i < max_lines (tool w1)).
    { simpl. apply lookup_lt_Some in Hp. lia. }
    assert (Hcol1 : line_pos (tool w1) !! Z.to_nat (Z.of_nat i)
                    = Some (Z.of_nat (length row))) by (by rewrite Nat2Z.id).
    simpl in Hpr. apply andb_true_iff in Hpr as [Hc Hrest].
    destruct (update_char_synced r0 0 w1 (Z.of_nat i) c (Z.of_nat (length row))
                Hsync Hi Hcol1)
      as (w' & Hrun & Hsync' & Hn' & Henv' & Hpos' & Hrow' & Hother').
    rewrite Nat2Z.id in *. rewrite Hc in Hrow'. cbn [stdout w1] in Hrow', Hother'.
    rewrite Hrow in Hrow'. simpl in Hrow'. rewrite Nat2Z.id, put_cell_end in Hrow'.
    exists w'. split; [done |]. split; [done |]. split; [done |].
    assert (Hstep : step_em p = mkEmitter rest) by (unfold step_em; by rewrite Hrem).
    split; [by rewrite Henv', Hstep |].
    split; [rewrite Henv'; simpl; by rewrite length_insert |].
    intros j pj Hpj. rewrite Henv' in Hpj. cbn [env w1] in Hpj.
    destruct (decide (i = j)) as [<- | Hne].
    + rewrite list_lookup_insert_eq in Hpj by (by apply lookup_lt_Some in Hp).
      injection Hpj as <-. exists (row ++ [c]). repeat split.
      * done.
      * rewrite Hpos'. unfold next_col. rewrite printable_not_newline by done.
        rewrite list_lookup_insert_eq by (by apply lookup_lt_Some in Hcol).
        f_equal. rewrite length_app. simpl. lia.
      * rewrite Htgt. simpl. by rewrite <- app_assoc.
      * done.
    + rewrite list_lookup_insert_ne in Hpj by done.
      destruct (Hshow j pj Hpj) as (rowj & Hrowj & Hcolj & Htgtj & Hprj).
      exists rowj. repeat split; try done.
      * rewrite Hother' by lia. done.
      * rewrite Hpos'. by rewrite list_lookup_insert_ne by done.
Qed.

(** The [for] loop from index [k] on: every process from [k] on is read
    once. *)
Lemma for_indices_emitters r0 tgt m : forall k w,
  synced r0 0 w ->
  max_lines (tool w) = Z.of_nat (length (env w)) ->
  lines_show r0 w tgt ->
  (k + m)%nat = length (env w) ->
  exists w',
    for_indices (seq k m) w = (Ok tt, w') /\
    synced r0 0 w' /\
    max_lines (tool w') = Z.of_nat (length (env w')) /\
    lines_show r0 w' tgt /\
    env w' = take k (env w) ++ map step_em (drop k (env w)).
Proof.
  induction m as [|m IH]; intros k w Hsync Hn Hshow Hkm.
  - exists w. cbn [seq for_indices]. repeat (split; [done |]).
    rewrite drop_ge by lia. rewrite take_ge by lia. by rewrite app_nil_r.
  - destruct (lookup_lt_is_Some_2 (env w) k) as [p Hp]; [lia |].
    destruct (read_and_show_emitter r0 k p w tgt Hsync Hn Hshow Hp)
      as (w1 & Hrun1 & Hsync1 & Hn1 & Henv1 & Hshow1).
    assert (Hlen1 : length (env w1) = length (env w))
      by (by rewrite Henv1, length_insert).
    destruct (IH (S k) w1) as (w' & Hrun & Hsync' & Hn' & Hshow' & Henv'); try done.
    + by rewrite Hn1, Hlen1.
    + lia.
    + exists w'. cbn [seq for_indices]. unfold bind. rewrite Hrun1.
      repeat (split; [done |]).
      rewrite Henv', Henv1.
      rewrite (take_S_r _ _ (step_em p))
        by (apply list_lookup_insert_eq; by apply lookup_lt_Some in Hp).
      rewrite take_insert_ge by lia. rewrite drop_insert_lt by lia.
      rewrite (drop_S (env w) p k Hp). cbn [map]. by rewrite <- app_assoc.
Qed.

(** The [while] loop: with more evaluations allowed than the longest
    output has characters, it returns with everything read and shown. *)
Lemma ui_loop_emitters r0 tgt fuel : forall w,
  synced r0 0 w ->
  max_lines (tool w) = Z.of_nat (length (env w)) ->
  lines_show r0 w tgt ->
  (longest (env w) < fuel)%nat ->
  exists w',
    ui_loop fuel w = (Ok tt, w') /\
    synced r0 0 w' /\
    lines_show r0 w' tgt /\
    longest (env w') = 0%nat.
Proof.
  induction fuel as [|fuel IH]; intros w Hsync Hn Hshow Hfuel; [lia |].
  cbn [ui_loop]. unfold bind, all_exited. rewrite poll_all_emitters.
  assert (Hw : mkWorld (tool w) (stdout w) (env w) = w) by (by destruct w).
  rewrite Hw. destruct (Nat.eqb_spec (longest (env w)) 0) as [Hz | Hnz].
  - by exists w.
  - unfold read_pass.
    destruct (for_indices_emitters r0 tgt (length (env w)) 0 w Hsync Hn Hshow)
      as (w1 & Hrun1 & Hsync1 & Hn1 & Hshow1 & Henv1); [done |].
    rewrite Hrun1. apply IH; try done.
    rewrite Henv1. rewrite take_0, drop_0. simpl. rewrite longest_step. lia.
Qed.
End EmitterFacts.

Section EnteredFacts.
Context {Env : Type}.
Implicit Types (w : World Env).

(** The setup of the scope leaves canvas and terminal in agreement, and
    touches no row but the footer's. *)
Lemma entered_synced n desc w :
  0 <= n ->
  char_in_str CR desc || char_in_str LF desc = false ->
  synced (t_row (render (stdout w))) (t_col (render (stdout w))) (entered n desc w) /\
  tool (entered n desc w) = mkUITool n n 0 (replicate (Z.to_nat n) 0) /\
  env (entered n desc w) = env w /\
  (forall r, r <> (t_row (render (stdout w)) + Z.to_nat n)%nat ->
             t_screen (render (stdout (entered n desc w))) !! r =
             t_screen (render (stdout w)) !! r) /\
  default [] (t_screen (render (stdout (entered n desc w)))
                !! (t_row (render (stdout w)) + Z.to_nat n)%nat) =
    put_cells (t_col (render (stdout w))) (list_ascii_of_string (banner desc))
              (default [] (t_screen (render (stdout w))
                             !! (t_row (render (stdout w)) + Z.to_nat n)%nat)).
Proof.
  intros Hn Hd.
  pose proof (synced_init (tool w) (stdout w ++ [HideCursor]) (env w) n Hn) as Hs1.
  rewrite init_eq in Hs1. cbn [snd tool stdout env] in Hs1.
  assert (Hhide : render (stdout w ++ [HideCursor]) =
            mkTerm (t_row (render (stdout w))) (t_col (render (stdout w)))
                   (t_screen (render (stdout w))) false) by (by rewrite render_app).
  rewrite Hhide in Hs1. cbn [t_row t_col] in Hs1.
  set (w1 := mkWorld _ _ _) in Hs1.
  assert (Hscreen1 : t_screen (render (stdout w1)) = t_screen (render (stdout w))).
  { unfold w1. cbn [stdout]. rewrite render_app, term_run_vmove by lia.
    by rewrite Hhide. }
  destruct Hs1 as (Hok1 & Hpos1 & Hft1 & Hn1 & Htr1).
  destruct (update_line_screen _ _ w1 n (banner desc) Htr1 Hn Hn1)
    as (w' & Hrun & Htool & Htr' & Hfoot & Hother); [by rewrite banner_clean |].
  assert (Hent : entered n desc w = w').
  { unfold entered, setup, CursorTool.hide_cursor. step_m.
    rewrite init_eq. simpl. unfold print_desc. step_m. fold (banner desc).
    fold w1. by rewrite Hrun. }
  rewrite Hent.
  assert (Henv : env w' = env w).
  { rewrite update_line_eq in Hrun by (by rewrite banner_clean). by injection Hrun as <-. }
  split; [| split; [by rewrite Htool | split; [done | split]]].
  - unfold synced, table_ok, at_footer in *. rewrite Htool in *.
    cbn [max_lines cur_line cur_col line_pos tool w1] in *. done.
  - intros r Hr. rewrite Hother by done. by rewrite Hscreen1.
  - rewrite Hfoot. by rewrite Hscreen1.
Qed.
End EnteredFacts.

Lemma longest_zero (ps : list Emitter) i p :
  longest ps = 0%nat -> ps !! i = Some p -> p = mkEmitter "".
Proof.
  revert i. induction ps as [|q ps IH]; intros i Hz Hp; [done |].
  cbn [longest fold_right] in Hz. fold (longest ps) in Hz.
  destruct i as [|i]; simpl in Hp.
  - injection Hp as ->. destruct p as [r]. simpl in Hz. destruct r; [done | simpl in Hz; lia].
  - apply (IH i); [lia | done].
Qed.

(** X9: any number of processes, each with any printable output, every output
    shorter than the bound: on a terminal whose cursor is in column 0 with
    blank rows below it, [_ui_thread] returns normally; the row of each line
    then shows the whole output of its process, in the order produced,
    [line_pos] holds the output's length, and nothing is left to read. *)
Theorem emitters_are_shown (outs : list string) u0 pre fuel :
  Forall (fun s => forallb printable (list_ascii_of_string s) = true) outs ->
  t_col (render pre) = 0%nat ->
  (forall i, (i < length outs)%nat ->
             t_screen (render pre) !! (t_row (render pre) + i)%nat = None) ->
  (longest (map mkEmitter outs) < fuel)%nat ->
  exists w',
    _ui_thread fuel (mkWorld u0 pre (map mkEmitter outs)) = (Ok tt, w') /\
    forall i s, outs !! i = Some s ->
      row_text (render (stdout w')) (t_row (render pre) + i) = s /\
      line_pos (tool w') !! i = Some (Z.of_nat (String.length s)) /\
      env w' !! i = Some (mkEmitter "").
Proof.
  intros Hpr Hcol Hblank Hfuel.
  set (w := mkWorld u0 pre (map mkEmitter outs)).
  set (n := Z.of_nat (length (env w))).
  set (r0 := t_row (render pre)).
  assert (Hlen : length (env w) = length outs) by (simpl; by rewrite length_map).
  destruct (entered_synced n "TinyUI" w) as (Hsync & Htool & Henv & Hother & _);
    [lia | done |].
  cbn [stdout w] in Hsync, Hother. rewrite Hcol in Hsync. fold r0 in Hsync, Hother.
  assert (Hshow : lines_show r0 (entered n "TinyUI" w) (map list_ascii_of_string outs)).
  { split; [by rewrite Henv, length_map, Hlen |].
    intros i p Hp. rewrite Henv in Hp. cbn [env w] in Hp.
    apply list_lookup_fmap_Some in Hp as (s & -> & Hs).
    assert (Hi : (i < length outs)%nat) by (by apply lookup_lt_Some in Hs).
    exists []. repeat split.
    - rewrite Hother by (unfold n; lia). by rewrite Hblank.
    - rewrite Htool. simpl. apply lookup_replicate_2. unfold n. lia.
    - by rewrite list_lookup_fmap, Hs.
    - by eapply (Forall_lookup_1 _ _ _ _ Hpr Hs). }
  destruct (ui_loop_emitters r0 (map list_ascii_of_string outs) fuel
              (entered n "TinyUI" w) Hsync)
    as (wb & Hrun & Hsyncb & [Hlenb Hshowb] & Hzero); try done.
  { rewrite Htool, Henv. done. }
  { by rewrite Henv. }
  exists (wrote wb [ShowCursor; Text nl]). split.
  - unfold _ui_thread. fold n.
    by rewrite (ui_tool_eq n "TinyUI" _ w _ wb eq_refl Hrun).
  - intros i s Hs.
    destruct (lookup_lt_is_Some_2 (env wb) i) as [p Hp].
    { rewrite Hlenb, length_map. by apply lookup_lt_Some in Hs. }
    destruct (Hshowb i p Hp) as (row & Hrow & Hcolb & Htgt & _).
    pose proof (longest_zero _ _ _ Hzero Hp) as ->.
    rewrite list_lookup_fmap, Hs in Htgt. simpl in Htgt. rewrite app_nil_r in Htgt.
    injection Htgt as <-.
    cbn [wrote tool stdout env]. repeat split; try done.
    + unfold row_text. rewrite render_app. simpl.
      rewrite Hrow. apply string_of_list_ascii_of_string.
    + rewrite Hcolb. by rewrite length_list_ascii.
Qed.

Lemma emitters_are_shown_witness :
  exists w',
    _ui_thread 5 (mkWorld blank_tool [ClearScreen] (map mkEmitter ["10%"; ""; "abcd"]))
      = (Ok tt, w') /\
    forall i s, ["10%"; ""; "abcd"] !! i = Some s ->
      row_text (render (stdout w')) (t_row (render [ClearScreen]) + i) = s /\
      line_pos (tool w') !! i = Some (Z.of_nat (String.length s)) /\
      env w' !! i = Some (mkEmitter "").
Proof.
  refine (emitters_are_shown ["10%"; ""; "abcd"] blank_tool [ClearScreen] 5 _ _ _ _).
  - repeat constructor.
  - reflexivity.
  - intros i Hi. reflexivity.
  - vm_compute. lia.
Defined.

(** ** The rsync command *)

Section CommandFacts.
Variable LSYNC_DIR : string.

Lemma nonempty_eqb (x : string) : x <> "" -> String.eqb x "" = false.
Proof. by destruct x. Qed.

Lemma rsync_cmd_eq remote local delete back git_repo git_ignore :
  remote <> "" -> local <> "" ->
  rsync_cmd LSYNC_DIR remote local delete back git_repo git_ignore =
  "rsync" :: "-ah" :: rsync_options LSYNC_DIR delete back git_repo git_ignore
    ++ [if back then remote else local; if back then local else remote].
Proof.
  intros Hr Hl. unfold rsync_cmd, rsync_options.
  apply nonempty_eqb in Hr, Hl.
  destruct delete, back, git_repo, git_ignore as [g|];
    try destruct (String.eqb g "") eqn:Hg;
    cbn [negb List.filter String.eqb Ascii.eqb Bool.eqb app String.append];
    rewrite ?Hr, ?Hl; cbn [negb]; try reflexivity.
Qed.

Lemma rsync_options_are_options delete back git_repo git_ignore :
  forallb is_option (rsync_options LSYNC_DIR delete back git_repo git_ignore) = true.
Proof.
  unfold rsync_options.
  destruct delete, back, git_repo, git_ignore as [g|];
    try destruct (String.eqb g ""); reflexivity.
Qed.

Lemma sync_commands_eq {Env} hosts remote local is_dir delete back git_repo git_ignore :
  forall w : World Env,
  exists w',
    sync_commands LSYNC_DIR hosts remote local is_dir delete back git_repo git_ignore w =
    (Ok (map (fun host =>
                rsync_cmd LSYNC_DIR
                  (host ++ ":" ++ remote ++ (if is_dir then "/" else ""))%string
                  (local ++ (if is_dir then "/" else ""))%string
                  delete back git_repo git_ignore) hosts), w').
Proof.
  induction hosts as [|host hosts IH]; intros w.
  - by exists w.
  - cbn [sync_commands map]. unfold bind at 1. unfold _sync_command at 1. step_m.
    destruct (IH (mkWorld (tool w)
                   (stdout w ++
                    [Text ("Executing: " ++ csi "42m" ++
                           String.concat " "
                             (rsync_cmd LSYNC_DIR
                                (host ++ ":" ++ remote ++ (if is_dir then "/" else ""))
                                (local ++ (if is_dir then "/" else ""))
                                delete back git_repo git_ignore)
                           ++ csi "0m" ++ nl)])
                   (env w))) as [w' Hrun].
    exists w'. by rewrite Hrun.
Qed.
End CommandFacts.



(** X11: with directories that do not start with [--], the command deletes at
    the destination exactly when [delete] is set, and leaves [.git] out
    exactly when [git_repo] is not set. *)
Theorem sync_command_flags LSYNC_DIR remote local delete back git_repo git_ignore :
  is_option remote = false -> is_option local = false ->
  (In "--delete" (rsync_cmd LSYNC_DIR remote local delete back git_repo git_ignore)
     <-> delete = true) /\
  (In "--exclude=.git" (rsync_cmd LSYNC_DIR remote local delete back git_repo git_ignore)
     <-> git_repo = false).
Proof.
  intros Hr Hl.
  assert (Hdirs : forall x, is_option x = true -> x <> remote /\ x <> local).
  { intros x Hx. split; intros ->; congruence. }
  destruct (Hdirs "--delete" eq_refl) as [Hr1 Hl1].
  destruct (Hdirs "--exclude=.git" eq_refl) as [Hr2 Hl2].
  unfold rsync_cmd.
  destruct back; cbn [negb]; rewrite !filter_In;
    destruct delete, git_repo, git_ignore as [g|];
    try destruct (String.eqb g "");
    cbn [negb In String.append]; split; split;
    try (intros _; split; [solve [auto 12] | done]);
    try (intros [Hin _]; repeat (destruct Hin as [Hin | Hin];
                                 try discriminate Hin; try congruence); done);
    try done.
Qed.

Lemma sync_command_flags_witness :
  (In "--delete" (rsync_cmd "/home/me/.lsync" "gpu1:/data/x/" "/Users/me/x/"
                            false false false (Some "/Users/me/x/.gitignore"))
     <-> false = true) /\
  (In "--exclude=.git" (rsync_cmd "/home/me/.lsync" "gpu1:/data/x/" "/Users/me/x/"
                                  false false false (Some "/Users/me/x/.gitignore"))
     <-> false = false).
Proof.
  refine (sync_command_flags "/home/me/.lsync" "gpu1:/data/x/" "/Users/me/x/"
            false false false (Some "/Users/me/x/.gitignore") _ _); reflexivity.
Defined.

(** ** The hosts *)

(** X12: syncing back with more than one host configured needs a master:
    without one [__post_init__] raises [typer.Exit]; with master [m] the
    hosts left are the entries equal to [m], as many as the list had, and
    none at all when [m] is not among the configured hosts. *)
Theorem post_init_back_keeps_master hs m :
  (1 < length hs)%nat ->
  __post_init__ (HostList hs) None true = Exit "master must be set when syncing back" /\
  exists hs',
    __post_init__ (HostList hs) (Some m) true = Done hs' /\
    Forall (fun h => h = m) hs' /\
    length hs' = count_occ string_dec hs m /\
    (~ In m hs -> hs' = []).
Proof.
  intros Hlen. unfold __post_init__.
  apply Nat.ltb_lt in Hlen. rewrite Hlen. cbn [andb].
  split; [done |]. eexists. split; [done |].
  clear Hlen. induction hs as [|h hs (IH1 & IH2 & IH3)]; [by repeat split |].
  cbn [List.filter count_occ]. destruct (String.eqb_spec h m) as [-> | Hne].
  - destruct (string_dec m m); [| done]. repeat split.
    + by constructor.
    + simpl. by rewrite IH2.
    + intros Hin. exfalso. apply Hin. by left.
  - destruct (string_dec h m); [done |]. repeat split; try done.
    intros Hin. apply IH3. intros Hm. apply Hin. by right.
Qed.

Lemma post_init_back_keeps_master_witness :
  __post_init__ (HostList ["gpu1"; "gpu2"; "gpu3"]) None true =
    Exit "master must be set when syncing back" /\
  exists hs',
    __post_init__ (HostList ["gpu1"; "gpu2"; "gpu3"]) (Some "gpu2") true = Done hs' /\
    Forall (fun h => h = "gpu2") hs' /\
    length hs' = count_occ string_dec ["gpu1"; "gpu2"; "gpu3"] "gpu2" /\
    (~ In "gpu2" ["gpu1"; "gpu2"; "gpu3"] -> hs' = []).
Proof.
  refine (post_init_back_keeps_master ["gpu1"; "gpu2"; "gpu3"] "gpu2" _).
  vm_compute. lia.
Defined.

(** ** The directory to sync *)

Lemma str_in_list_In x l : str_in_list x l = true <-> In x l.
Proof.
  unfold str_in_list. rewrite existsb_exists. split.
  - intros (y & Hin & Heq). apply String.eqb_eq in Heq. by subst.
  - intros Hin. exists x. split; [done |]. apply String.eqb_refl.
Qed.

Lemma find_ancestor_from_spec cwd d :
  match find_ancestor_from cwd d with
  | Done found =>
      exists below name parent,
        d = below ++ found /\ found = name :: parent /\
        In name SYNC_DIRS /\ Forall (fun c => ~ In c SYNC_DIRS) below
  | Exit _ => Forall (fun c => ~ In c SYNC_DIRS) d
  end.
Proof.
  induction d as [|name parent IH]; [by constructor |].
  cbn [find_ancestor_from].
  destruct (str_in_list name SYNC_DIRS) eqn:Hname.
  - exists [], name, parent. repeat split; try done. by apply str_in_list_In.
  - assert (Hnot : ~ In name SYNC_DIRS).
    { intros Hin%str_in_list_In. congruence. }
    destruct (find_ancestor_from cwd parent) as [found | code].
    + destruct IH as (below & n & p & -> & -> & Hin & Hbelow).
      exists (name :: below), n, p. repeat split; try done. by constructor.
    + by constructor.
Qed.

Lemma find_ancestor_from_exit cwd d code :
  find_ancestor_from cwd d = Exit code ->
  code = ("No ancestor directory in ['common_sync', 'sglang', 'docker_workspace'] found in "
          ++ as_posix cwd)%string.
Proof.
  induction d as [|name parent IH]; cbn [find_ancestor_from].
  - by intros [= <-].
  - destruct (str_in_list name SYNC_DIRS); [done | apply IH].
Qed.

(** X13: [find_ancestor_to_sync] returns the nearest directory, from the working
    directory upwards (itself included), whose name is one of [SYNC_DIRS]:
    no component below the one returned has such a name.  It raises
    [typer.Exit] exactly when no component of the working directory has. *)
Theorem find_ancestor_is_nearest cwd :
  match find_ancestor_to_sync cwd with
  | Done found =>
      exists below name parent,
        cwd = below ++ found /\ found = name :: parent /\
        In name SYNC_DIRS /\ Forall (fun c => ~ In c SYNC_DIRS) below
  | Exit code =>
      Forall (fun c => ~ In c SYNC_DIRS) cwd /\
      code = ("No ancestor directory in ['common_sync', 'sglang', 'docker_workspace'] found in "
              ++ as_posix cwd)%string
  end.
Proof.
  unfold find_ancestor_to_sync.
  pose proof (find_ancestor_from_spec cwd cwd) as Hspec.
  destruct (find_ancestor_from cwd cwd) as [found | code] eqn:Hrun; [done |].
  split; [done |]. by apply (find_ancestor_from_exit cwd cwd).
Qed.

(** ** Syncing back *)

(** X14: syncing back with several hosts configured and master [m]: one rsync
    is run for every entry of the host list equal to [m], and each of them
    copies from [m] to the local directory: after [rsync -ah] and options
    only, its source is [m:remote] and its destination the local directory. *)
Theorem sync_back_pulls_from_master {Env : Type} LSYNC_DIR hs m remote local
    is_dir delete git_repo git_ignore (w : World Env) :
  (1 < length hs)%nat ->
  local <> "" ->
  exists hs' cmds w',
    __post_init__ (HostList hs) (Some m) true = Done hs' /\
    sync_commands LSYNC_DIR hs' remote local is_dir delete true git_repo git_ignore w
      = (Ok cmds, w') /\
    length cmds = count_occ string_dec hs m /\
    Forall (fun cmd =>
              exists opts,
                cmd = "rsync" :: "-ah" :: opts
                      ++ [(m ++ ":" ++ remote ++ (if is_dir then "/" else ""))%string;
                          (local ++ (if is_dir then "/" else ""))%string] /\
                forallb is_option opts = true) cmds.
Proof.
  intros Hlen Hlocal.
  set (hs' := List.filter (fun h => String.eqb h m) hs).
  destruct (sync_commands_eq LSYNC_DIR hs' remote local is_dir delete true git_repo
              git_ignore w) as [w' Hrun].
  eexists hs', _, w'. split; [| split; [exact Hrun | split]].
  - unfold __post_init__. apply Nat.ltb_lt in Hlen. by rewrite Hlen.
  - rewrite length_map. unfold hs'. clear.
    induction hs as [|h hs IH]; [done |].
    cbn [List.filter count_occ]. destruct (String.eqb_spec h m) as [-> | Hne].
    + destruct (string_dec m m); [| done]. simpl. by rewrite IH.
    + by destruct (string_dec h m).
  - apply List.Forall_forall. intros cmd Hin.
    apply in_map_iff in Hin as (h & <- & Hh).
    apply filter_In in Hh as [_ Heq]. apply String.eqb_eq in Heq as ->.
    eexists. split; [| apply (rsync_options_are_options LSYNC_DIR)].
    rewrite rsync_cmd_eq; [reflexivity | |].
    + destruct m; discriminate.
    + destruct local; [done | discriminate].
Qed.

Lemma sync_back_pulls_from_master_witness :
  exists hs' cmds w',
    __post_init__ (HostList ["gpu1"; "gpu2"]) (Some "gpu2") true = Done hs' /\
    sync_commands "/home/me/.lsync" hs' "/data/sglang" "/Users/me/sglang"
                  true false true false None (world0 tt)
      = (Ok cmds, w') /\
    length cmds = count_occ string_dec ["gpu1"; "gpu2"] "gpu2" /\
    Forall (fun cmd =>
              exists opts,
                cmd = "rsync" :: "-ah" :: opts
                      ++ [("gpu2" ++ ":" ++ "/data/sglang" ++ (if true then "/" else ""))%string;
                          ("/Users/me/sglang" ++ (if true then "/" else ""))%string] /\
                forallb is_option opts = true) cmds.
Proof.
  refine (sync_back_pulls_from_master "/home/me/.lsync" ["gpu1"; "gpu2"] "gpu2"
            "/data/sglang" "/Users/me/sglang" true false false None (world0 tt) _ _).
  - vm_compute. lia.
  - discriminate.
Defined.

(** ** One pass over the processes *)

Section PassFacts.
Implicit Types (w : World (list Emitter)) (p : Emitter).

Lemma texts_app tr1 tr2 : texts (tr1 ++ tr2) = texts tr1 ++ texts tr2.
Proof. apply List.filter_app. Qed.

Lemma texts_vmove d : texts (vmove d) = [].
Proof. unfold vmove. by destruct (0 <? d), (d <? 0). Qed.

Lemma texts_hmove d : texts (hmove d) = [].
Proof. unfold hmove. by destruct (0 <? d), (d <? 0). Qed.

Lemma update_char_texts {Env} i c (w : World Env) :
  table_ok (tool w) -> 0 <= i < max_lines (tool w) ->
  exists w' : World Env,
    update_char i (str1 c) w = (Ok tt, w') /\
    table_ok (tool w') /\
    max_lines (tool w') = max_lines (tool w) /\
    env w' = env w /\
    texts (stdout w') =
      texts (stdout w) ++ (if printable c then [Text (str1 c)] else []).
Proof.
  intros Hok Hi. destruct (table_lookup (tool w) i Hok Hi) as [q Hq].
  destruct (printable c) eqn:Hc.
  - rewrite (update_char_print i (str1 c) q) by (done || by apply printable_not_newline).
    eexists. split; [done |]. cbn [tool stdout env max_lines line_pos].
    repeat (split; [first [done | unfold table_ok in *; simpl; by rewrite length_insert] |]).
    rewrite !texts_app, !texts_vmove, !texts_hmove. by rewrite app_nil_r.
  - rewrite (update_char_newline i (str1 c) w Hok Hi (not_printable_is_newline c Hc)).
    eexists. split; [done |]. cbn [tool stdout env max_lines line_pos].
    repeat (split; [first [done | unfold table_ok in *; simpl; by rewrite length_insert] |]).
    rewrite !texts_app, !texts_vmove, !texts_hmove. by rewrite !app_nil_r.
Qed.

Lemma read_and_show_texts i p w :
  lines_match w -> env w !! i = Some p ->
  exists w',
    read_and_show i w = (Ok tt, w') /\
    lines_match w' /\
    env w' = <[i := step_em p]> (env w) /\
    texts (stdout w') = texts (stdout w) ++ first_text p.
Proof.
  intros [Hok Hn] Hp. unfold read_and_show, first_text. rewrite Hp.
  cbn [has_stdout read1 Emitter_Popen].
  destruct (remaining p) as [|c rest] eqn:Hrem.
  - cbn [String.eqb]. eexists. split; [done |].
    rewrite list_insert_id by done. rewrite step_em_empty by done.
    rewrite list_insert_id by done. cbn [stdout env tool]. by rewrite app_nil_r.
  - cbn [str1 String.eqb]. fold (str1 c).
    set (w1 := mkWorld (tool w) (stdout w) (<[i := mkEmitter rest]> (env w))).
    assert (Hi : 0 <= Z.of_nat i < max_lines (tool w1)).
    { simpl. apply lookup_lt_Some in Hp. lia. }
    destruct (update_char_texts (Z.of_nat i) c w1 Hok Hi)
      as (w' & Hrun & Hok' & Hn' & Henv' & Htexts).
    exists w'. split; [done |].
    assert (Hstep : step_em p = mkEmitter rest) by (unfold step_em; by rewrite Hrem).
    split; [| split; [by rewrite Henv', Hstep | done]].
    split; [done |]. rewrite Hn', Henv'. simpl. by rewrite length_insert.
Qed.

Lemma for_indices_texts m : forall k w,
  lines_match w ->
  (k + m)%nat = length (env w) ->
  exists w',
    for_indices (seq k m) w = (Ok tt, w') /\
    lines_match w' /\
    env w' = take k (env w) ++ map step_em (drop k (env w)) /\
    texts (stdout w') = texts (stdout w) ++ flat_map first_text (drop k (env w)).
Proof.
  induction m as [|m IH]; intros k w Hw Hkm.
  - exists w. cbn [seq for_indices]. repeat (split; [done |]).
    rewrite drop_ge by lia. rewrite take_ge by lia. by rewrite !app_nil_r.
  - destruct (lookup_lt_is_Some_2 (env w) k) as [p Hp]; [lia |].
    destruct (read_and_show_texts k p w Hw Hp) as (w1 & Hrun1 & Hw1 & Henv1 & Htexts1).
    destruct (IH (S k) w1 Hw1) as (w' & Hrun & Hw' & Henv' & Htexts').
    { rewrite Henv1, length_insert. lia. }
    exists w'. cbn [seq for_indices]. unfold bind. rewrite Hrun1.
    repeat (split; [done |]). split.
    + rewrite Henv', Henv1.
      rewrite (take_S_r _ _ (step_em p))
        by (apply list_lookup_insert_eq; by apply lookup_lt_Some in Hp).
      rewrite take_insert_ge by lia. rewrite drop_insert_lt by lia.
      rewrite (drop_S (env w) p k Hp). cbn [map]. by rewrite <- app_assoc.
    + rewrite Htexts', Htexts1, Henv1. rewrite drop_insert_lt by lia.
      rewrite (drop_S (env w) p k Hp). cbn [flat_map]. by rewrite <- app_assoc.
Qed.
End PassFacts.

(** X15: one pass of the [for] loop reads exactly one character from every
    process that has output left, and prints the characters read in the
    order of the processes' indices, line feeds and carriage returns
    excepted, which are read but not printed. *)
Theorem read_pass_is_round_robin (w : World (list Emitter)) :
  lines_match w ->
  exists w',
    read_pass w = (Ok tt, w') /\
    env w' = map step_em (env w) /\
    texts (stdout w') = texts (stdout w) ++ flat_map first_text (env w).
Proof.
  intros Hw. unfold read_pass.
  destruct (for_indices_texts (length (env w)) 0 w Hw eq_refl)
    as (w' & Hrun & _ & Henv & Htexts).
  exists w'. by rewrite take_0, drop_0 in *.
Qed.

Lemma read_pass_is_round_robin_witness :
  exists w',
    read_pass (mkWorld (mkUITool 3 3 0 [0; 0; 0]) []
                       [mkEmitter "ab"; mkEmitter ""; mkEmitter (cr ++ "9%")]) = (Ok tt, w') /\
    env w' = map step_em [mkEmitter "ab"; mkEmitter ""; mkEmitter (cr ++ "9%")] /\
    texts (stdout w') =
      texts [] ++ flat_map first_text
                    [mkEmitter "ab"; mkEmitter ""; mkEmitter (cr ++ "9%")].
Proof.
  refine (read_pass_is_round_robin
            (mkWorld (mkUITool 3 3 0 [0; 0; 0]) []
                     [mkEmitter "ab"; mkEmitter ""; mkEmitter (cr ++ "9%")]) _).
  split; reflexivity.
Defined.

(** ** The banner, and calls that fail *)

(** X16: entering a session of [n >= 0] lines on a terminal whose cursor is in
    column 0 puts the banner [===== desc =====] on the footer row, [n] rows
    below the cursor's, over what that row showed; no other row changes,
    and the body starts with canvas and terminal in agreement. *)
Theorem banner_is_on_the_footer {Env : Type} n desc (w : World Env) :
  0 <= n ->
  char_in_str CR desc || char_in_str LF desc = false ->
  t_col (render (stdout w)) = 0%nat ->
  synced (t_row (render (stdout w))) 0 (entered n desc w) /\
  list_ascii_of_string
    (row_text (render (stdout (entered n desc w))) (t_row (render (stdout w)) + Z.to_nat n)) =
    list_ascii_of_string ("===== " ++ desc ++ " =====")
    ++ drop (String.length ("===== " ++ desc ++ " ====="))
            (list_ascii_of_string
               (row_text (render (stdout w)) (t_row (render (stdout w)) + Z.to_nat n))) /\
  (forall r, r <> (t_row (render (stdout w)) + Z.to_nat n)%nat ->
             row_text (render (stdout (entered n desc w))) r =
             row_text (render (stdout w)) r).
Proof.
  intros Hn Hd Hcol.
  destruct (entered_synced n desc w Hn Hd) as (Hsync & _ & _ & Hother & Hfoot).
  rewrite Hcol in *. split; [done |]. split.
  - unfold row_text. rewrite !list_ascii_of_string_of_list_ascii, Hfoot.
    rewrite put_cells_within by lia. by rewrite length_list_ascii.
  - intros r Hr. unfold row_text. by rewrite Hother.
Qed.

Lemma banner_is_on_the_footer_witness :
  synced (t_row (render (stdout (world0 tt)))) 0 (entered 2 "TinyUI" (world0 tt)) /\
  list_ascii_of_string
    (row_text (render (stdout (entered 2 "TinyUI" (world0 tt))))
              (t_row (render (stdout (world0 tt))) + Z.to_nat 2)) =
    list_ascii_of_string ("===== " ++ "TinyUI" ++ " =====")
    ++ drop (String.length ("===== " ++ "TinyUI" ++ " ====="))
            (list_ascii_of_string
               (row_text (render (stdout (world0 tt)))
                         (t_row (render (stdout (world0 tt))) + Z.to_nat 2))) /\
  (forall r, r <> (t_row (render (stdout (world0 tt))) + Z.to_nat 2)%nat ->
             row_text (render (stdout (entered 2 "TinyUI" (world0 tt)))) r =
             row_text (render (stdout (world0 tt))) r).
Proof.
  refine (banner_is_on_the_footer 2 "TinyUI" (world0 tt) _ _ _).
  - discriminate.
  - reflexivity.
  - reflexivity.
Defined.

(** X17: a call of [update_char] or [update_line] that raises has changed
    nothing: whatever the state of the canvas, well formed or not, the
    world after the failed call is the world before it, and the exception
    is an [AssertionError] or an [IndexError]. *)
Theorem failed_updates_change_nothing {Env : Type} (w w' : World Env) e :
  (forall line char,
      update_char line char w = (Raise e, w') ->
      w' = w /\ (e = AssertionError \/ exists msg, e = IndexError msg)) /\
  (forall line content,
      update_line line content w = (Raise e, w') ->
      w' = w /\ e = AssertionError).
Proof.
  split.
  - intros line char. unfold update_char. step_m.
    destruct ((0 <=? line) && (line <? max_lines (tool w))); simpl;
      [| intros [= <- <-]; split; [done | by left]].
    destruct (str_in_list char [nl; cr]).
    + unfold line_pos_setitem. step_m.
      destruct (py_index (line_pos (tool w)) line); simpl.
      * by rewrite reset_pos_eq.
      * intros [= <- <-]. split; [done | right; by eexists].
    + unfold line_pos_getitem. step_m.
      destruct (py_index (line_pos (tool w)) line) as [k|] eqn:Hk; simpl;
        [| intros [= <- <-]; split; [done | right; by eexists]].
      destruct (line_pos (tool w) !! k); simpl;
        [| intros [= <- <-]; split; [done | right; by eexists]].
      rewrite move_cursor_eq. simpl. unfold print_char. step_m.
      unfold line_pos_setitem. step_m. rewrite Hk. simpl.
      by rewrite reset_pos_eq.
  - intros line content.
    destruct (char_in_str CR content || char_in_str LF content) eqn:Hc.
    + rewrite update_line_rejects by done. by intros [= <- <-].
    + by rewrite update_line_eq by done.
Qed.

Lemma failed_updates_change_nothing_witness :
  mkWorld (mkUITool 3 3 0 [0]) [] tt = mkWorld (mkUITool 3 3 0 [0]) [] tt /\
  (IndexError "list index out of range" = AssertionError \/
   exists msg, IndexError "list index out of range" = IndexError msg).
Proof.
  refine (proj1 (failed_updates_change_nothing
                   (mkWorld (mkUITool 3 3 0 [0]) [] tt)
                   (mkWorld (mkUITool 3 3 0 [0]) [] tt)
                   (IndexError "list index out of range")) 2 "a" _).
  reflexivity.
Defined.
